(** * Elemental property sources of matminer (descriptors/data.py)

    A shallow embedding of [matminer/descriptors/data.py]: the table-backed
    source [MagpieData], the live-attribute source [PymatgenData] and the
    oxidation-state parser [PymatgenData.get_composition_oxidation_state].

    Conventions of the embedding.
    - Python strings are [string]s of 8-bit characters (code points below
      256), with the Python 3 [str] semantics of [strip], [split], [int]
      and of the [re] classes [[a-z]] (under IGNORECASE) and [\d].
    - Exceptions are values of [exn]; a computation that may raise returns
      [res A]; the live-attribute source, which prints before it re-raises,
      also returns the lines it printed.
    - A Python [dict] whose iteration order matters (the element->amount
      dictionary that is sorted) is an association list with unique keys;
      dictionaries that are only looked up are [gmap]s.
    - The chemistry library (pymatgen) is a collaborator that is not part
      of this module: it is the class [Pymatgen] below. *)

From Stdlib Require Import Ascii QArith Qround Sorting.Sorted Sorting.Permutation.
From stdpp Require Import gmap strings list fin_maps.

Local Open Scope string_scope.
Local Open Scope list_scope.

(** ** Exceptions and results *)

(** The key of a failed dictionary lookup. *)
Inductive pykey : Type :=
  | KStr (s : string)
  | KInt (z : Z).

Inductive exn : Type :=
  | ValueError (msg : string)
  | KeyError (key : pykey)
  | IndexError
  | AttributeError (attr : string)
  | TypeError
  | IOError (path : string).

Inductive res (A : Type) : Type :=
  | Ok (a : A)
  | Raise (e : exn).
Arguments Ok {A} a.
Arguments Raise {A} e.

Definition rbind {A B : Type} (m : res A) (k : A -> res B) : res B :=
  match m with
  | Ok a => k a
  | Raise e => Raise e
  end.

#[global] Instance res_ret : MRet res := @Ok.
#[global] Instance res_bind : MBind res := fun A B k m => rbind m k.

(** ** Python string primitives *)

Module Py.

Definition in_range (lo hi : nat) (c : ascii) : bool :=
  (lo <=? nat_of_ascii c)%nat && (nat_of_ascii c <=? hi)%nat.

(** [[a-z]] under [re.IGNORECASE]. *)
Definition is_alpha (c : ascii) : bool := in_range 65 90 c || in_range 97 122 c.

(** [\d]. *)
Definition is_digit (c : ascii) : bool := in_range 48 57 c.

(** [[+-]]. *)
Definition is_sign (c : ascii) : bool :=
  (nat_of_ascii c =? 43)%nat || (nat_of_ascii c =? 45)%nat.

(** The characters removed by [str.strip()] (those with [isspace()]). *)
Definition is_space (c : ascii) : bool :=
  in_range 9 13 c || in_range 28 32 c
  || (nat_of_ascii c =? 133)%nat || (nat_of_ascii c =? 160)%nat.

Fixpoint existsb_str (p : ascii -> bool) (s : string) : bool :=
  match s with
  | EmptyString => false
  | String c s' => p c || existsb_str p s'
  end.

Fixpoint forallb_str (p : ascii -> bool) (s : string) : bool :=
  match s with
  | EmptyString => true
  | String c s' => p c && forallb_str p s'
  end.

(** ["+" in s or "-" in s]. *)
Definition has_sign (s : string) : bool := existsb_str is_sign s.

Fixpoint lstrip (s : string) : string :=
  match s with
  | EmptyString => EmptyString
  | String c s' => if is_space c then lstrip s' else s
  end.

Fixpoint rstrip (s : string) : string :=
  match s with
  | EmptyString => EmptyString
  | String c s' =>
      match rstrip s' with
      | EmptyString => if is_space c then EmptyString else String c EmptyString
      | r => String c r
      end
  end.

(** [s.strip()]. *)
Definition strip (s : string) : string := rstrip (lstrip s).

Definition cons_head (c : ascii) (l : list string) : list string :=
  match l with
  | [] => [String c EmptyString]
  | h :: t => String c h :: t
  end.

(** [re.split(p+, s)] for a character class [p]: the pieces of [s] between
    the maximal runs of characters of the class. [in_sep] tells that the
    character before [s] belonged to a run. *)
Fixpoint re_split_plus_from (p : ascii -> bool) (in_sep : bool) (s : string)
  : list string :=
  match s with
  | EmptyString => [EmptyString]
  | String c s' =>
      if p c then
        if in_sep then re_split_plus_from p true s'
        else EmptyString :: re_split_plus_from p true s'
      else cons_head c (re_split_plus_from p false s')
  end.

Definition re_split_plus (p : ascii -> bool) (s : string) : list string :=
  re_split_plus_from p false s.

(** [re.split(p, s)] for a character class [p] matched one character at a
    time. *)
Fixpoint re_split_one (p : ascii -> bool) (s : string) : list string :=
  match s with
  | EmptyString => [EmptyString]
  | String c s' =>
      if p c then EmptyString :: re_split_one p s'
      else cons_head c (re_split_one p s')
  end.

Fixpoint strip_prefix (pre s : string) : option string :=
  match pre with
  | EmptyString => Some s
  | String a pre' =>
      match s with
      | EmptyString => None
      | String b s' => if Ascii.eqb a b then strip_prefix pre' s' else None
      end
  end.

(** The first occurrence of [sep] in [s]: what is before and after it. *)
Fixpoint partition (sep s : string) : option (string * string) :=
  match strip_prefix sep s with
  | Some rest => Some (EmptyString, rest)
  | None =>
      match s with
      | EmptyString => None
      | String c s' =>
          match partition sep s' with
          | Some (b, a) => Some (String c b, a)
          | None => None
          end
      end
  end.

(** [s.split(sep, 1)]: an empty separator raises [ValueError]. *)
Definition split1 (s sep : string) : res (list string) :=
  match sep with
  | EmptyString => Raise (ValueError "empty separator")
  | _ =>
      match partition sep s with
      | Some (b, a) => Ok [b; a]
      | None => Ok [s]
      end
  end.

(** [s.replace(old, new)] for a non-empty [old]. *)
Fixpoint replace_from (fuel : nat) (old new s : string) : string :=
  match fuel with
  | O => s
  | S fuel' =>
      match partition old s with
      | Some (b, a) => b +:+ new +:+ replace_from fuel' old new a
      | None => s
      end
  end.

Definition replace (s old new : string) : string :=
  replace_from (String.length s) old new s.

(** [s.split()]: the maximal runs of characters that are not white space. *)
Definition split_ws (s : string) : list string :=
  filter (fun x => x <> EmptyString) (re_split_plus is_space s).

Definition squote : ascii := ascii_of_nat 39.
Definition dquote : ascii := ascii_of_nat 34.
Definition backslash : ascii := ascii_of_nat 92.

Definition hex_digit (n : nat) : ascii :=
  if (n <? 10)%nat then ascii_of_nat (48 + n) else ascii_of_nat (87 + n).

(** One character of [repr(s)] inside the quotes [q]. *)
Definition repr_char (q c : ascii) : string :=
  let n := nat_of_ascii c in
  if Ascii.eqb c backslash then String backslash (String backslash EmptyString)
  else if Ascii.eqb c q then String backslash (String q EmptyString)
  else if (n =? 10)%nat then String backslash "n"
  else if (n =? 13)%nat then String backslash "r"
  else if (n =? 9)%nat then String backslash "t"
  else if (n <? 32)%nat || in_range 127 160 c || (n =? 173)%nat then
    String backslash
      (String "x" (String (hex_digit (n / 16)) (String (hex_digit (n mod 16)) EmptyString)))
  else String c EmptyString.

Fixpoint repr_body (q : ascii) (s : string) : string :=
  match s with
  | EmptyString => EmptyString
  | String c s' => repr_char q c +:+ repr_body q s'
  end.

(** [repr(s)]: single quotes, unless [s] has a single quote and no double
    quote. *)
Definition repr (s : string) : string :=
  let q :=
    if existsb_str (Ascii.eqb squote) s && negb (existsb_str (Ascii.eqb dquote) s)
    then dquote else squote in
  String q (repr_body q s +:+ String q EmptyString).

Fixpoint join (sep : string) (l : list string) : string :=
  match l with
  | [] => EmptyString
  | [x] => x
  | x :: l' => x +:+ sep +:+ join sep l'
  end.

(** [repr(l)], which is also ["{}".format(l)], for a list of strings. *)
Definition repr_list (l : list string) : string :=
  "[" +:+ join ", " (map repr l) +:+ "]".

Definition digit_val (c : ascii) : Z := Z.of_nat (nat_of_ascii c) - 48.

(** The digits of an integer literal, most significant first, a single
    underscore being allowed between two digits. [acc] is the value read so
    far and [after_digit] tells that the previous character was a digit. *)
Fixpoint int_digits (acc : Z) (after_digit : bool) (s : string) : option Z :=
  match s with
  | EmptyString => if after_digit then Some acc else None
  | String c s' =>
      if is_digit c then int_digits (10 * acc + digit_val c) true s'
      else if (nat_of_ascii c =? 95)%nat && after_digit then int_digits acc false s'
      else None
  end.

(** The white space [int()] skips around a literal: that of [str.strip()]
    without the separators 0x1c-0x1f. *)
Definition is_int_space (c : ascii) : bool :=
  in_range 9 13 c || (nat_of_ascii c =? 32)%nat
  || (nat_of_ascii c =? 133)%nat || (nat_of_ascii c =? 160)%nat.

Fixpoint skip_left (s : string) : string :=
  match s with
  | EmptyString => EmptyString
  | String c s' => if is_int_space c then skip_left s' else s
  end.

Fixpoint skip_right (s : string) : string :=
  match s with
  | EmptyString => EmptyString
  | String c s' =>
      match skip_right s' with
      | EmptyString => if is_int_space c then EmptyString else String c EmptyString
      | r => String c r
      end
  end.

(** [int(s)] on a string. *)
Definition int (s : string) : res Z :=
  let bad := Raise (ValueError ("invalid literal for int() with base 10: " +:+ repr s)) in
  match skip_right (skip_left s) with
  | EmptyString => bad
  | String c t =>
      if (nat_of_ascii c =? 43)%nat then
        match int_digits 0 false t with Some n => Ok n | None => bad end
      else if (nat_of_ascii c =? 45)%nat then
        match int_digits 0 false t with Some n => Ok (- n)%Z | None => bad end
      else
        match int_digits 0 false (String c t) with Some n => Ok n | None => bad end
  end.

(** [l[-1]]. *)
Definition last_item {A : Type} (l : list A) : res A :=
  match last l with
  | Some x => Ok x
  | None => Raise IndexError
  end.

(** [int(x)] on a float that is a rational: truncation towards zero. *)
Definition int_of_float (q : Q) : Z := Z.quot (Qnum q) (Zpos (Qden q)).

Fixpoint is_suffix_from (fuel : nat) (suf s : string) : bool :=
  if String.eqb suf s then true
  else match fuel, s with
       | S fuel', String _ s' => is_suffix_from fuel' suf s'
       | _, _ => false
       end.

End Py.

(** ** Data model *)

(** A Python float: only its identity and whether it is not-a-number
    matter here. *)
Inductive pyfloat : Type :=
  | FNaN
  | FInf (negative : bool)
  | FNum (q : Q).

(** A key of a pymatgen [Composition]: a plain [Element] has no
    [oxi_state] attribute, a [Specie] has one. *)
Record Specie : Type := { symbol : string; oxi_state : option Z }.

(** A pymatgen [Composition] object: species and their amounts. *)
Definition Composition : Type := list (Specie * Q).

(** What [getattr(element, name)] can give. *)
Inductive attr : Type :=
  | PNone
  | PNum (v : pyfloat) (unit : option string)
  | PDict (d : gmap Z pyfloat)
  | PStr (s : string)
  | POther.

(** The value of a cell of the Magpie table: a float, or the list of floats
    of the [OxidationStates] property. *)
Inductive table_value : Type :=
  | VFloat (v : pyfloat)
  | VList (l : list pyfloat).

(** The collaborators: pymatgen's formula parser, [Element] constructor,
    electronegativity [get_el_sp(sym).X], [getattr] on an [Element],
    [len(_pt_data)], [Element.from_Z], and Python's [float] on a string. *)
Class Pymatgen : Type := {
  Composition_of_str : string -> res Composition;
  is_element : string -> bool;
  X : string -> Q;
  getattr : string -> string -> option attr;
  pt_data_len : nat;
  from_Z : nat -> string;
  float_of_str : string -> option pyfloat
}.

(** [d[k] += a] on the [defaultdict(float)] of [get_el_amt_dict]. *)
Fixpoint dict_add (d : list (string * Q)) (k : string) (a : Q) : list (string * Q) :=
  match d with
  | [] => [(k, a)]
  | (k', a') :: d' =>
      if String.eqb k' k then (k', a' + a)%Q :: d' else (k', a') :: dict_add d' k a
  end.

(** [comp.get_el_amt_dict()]: the amounts summed by element symbol. *)
Definition get_el_amt_dict (c : Composition) : list (string * Q) :=
  fold_left (fun d '(sp, a) => dict_add d (symbol sp) a) c [].

(** [d[k]] on the element->amount dictionary. *)
Fixpoint dict_get (d : list (string * Q)) (k : string) : res Q :=
  match d with
  | [] => Raise (KeyError (KStr k))
  | (k', a) :: d' => if String.eqb k' k then Ok a else dict_get d' k
  end.

(** [sorted(l, key=lambda sym: get_el_sp(sym).X)]: Python's sort is stable
    and compares keys with [<] only. *)
Section Sorted.
Context `{Pymatgen}.

Fixpoint insert_sorted (x : string) (l : list string) : list string :=
  match l with
  | [] => [x]
  | y :: l' =>
      if Qlt_le_dec (X y) (X x) then y :: insert_sorted x l' else x :: y :: l'
  end.

Definition sorted (l : list string) : list string := foldr insert_sorted [] l.

(** [Element(sym)], then [str] of it. *)
Definition Element (sym : string) : res string :=
  if is_element sym then Ok sym
  else Raise (ValueError (Py.repr sym +:+ " is not a valid Element")).
End Sorted.

(** [for _ in range(int(amt))]: one item per atom. *)
Definition per_atom {A : Type} (v : A) (amt : Q) : list A :=
  replicate (Z.to_nat (Py.int_of_float amt)) v.

(** ** The oxidation-state parser *)

Module OxidationStateParser.
Section Parser.
Context `{Pymatgen}.

(** Lines 204-207: the token of one segment. *)
Definition token_of (s : string) : res string :=
  let digits := Py.re_split_plus Py.is_sign s in
  let sign_tmp := Py.re_split_plus Py.is_digit s in
  let sign := map Py.strip (filter (fun x => Py.strip x <> EmptyString) sign_tmp) in
  sg ← Py.last_item sign;
  dg ← Py.last_item digits;
  Ok (sg +:+ Py.strip dg).

(** Lines 200-207: the loop over [non_alphabets]. *)
Fixpoint tokens_of (non_alphabets : list string) : res (list string) :=
  match non_alphabets with
  | [] => Ok []
  | na :: rest =>
      let s := Py.strip na in
      if bool_decide (s <> EmptyString) && Py.has_sign s then
        t ← token_of s; ts ← tokens_of rest; Ok (t :: ts)
      else tokens_of rest
  end.

(** [before, after = tuple(l)]. *)
Definition unpack2 (l : list string) : res (string * string) :=
  match l with
  | [b; a] => Ok (b, a)
  | _ => Raise (ValueError "not enough values to unpack (expected 2, got 1)")
  end.

(** Lines 213-215: the loop over [oxidation_states[1:]]. *)
Fixpoint split_rest (after : string) (oxs : list string) : res (list string) :=
  match oxs with
  | [] => Ok []
  | t :: oxs' =>
      l ← Py.split1 after t;
      '(before, after') ← unpack2 l;
      fp ← split_rest after' oxs';
      Ok (before :: fp)
  end.

(** Lines 216-218: the loop over [enumerate(formula_plain)]. *)
Fixpoint assign_states (d : gmap string Z) (formula_plain oxs : list string)
  : res (gmap string Z) :=
  match formula_plain with
  | [] => Ok d
  | g :: gs =>
      match oxs with
      | [] => Raise IndexError
      | t :: oxs' =>
          let el := hd EmptyString (Py.re_split_one Py.is_digit (Py.strip g)) in
          v ← Py.int t;
          sym ← Element el;
          assign_states (<[sym := v]> d) gs oxs'
      end
  end.

Definition get_composition_oxidation_state (formula : string)
  : res (Composition * gmap string Z) :=
  let oxidation_states_dict : gmap string Z := ∅ in
  let non_alphabets := Py.re_split_plus Py.is_alpha formula in
  match non_alphabets with
  | [] => c ← Composition_of_str formula; Ok (c, oxidation_states_dict)
  | _ =>
      oxidation_states ← tokens_of non_alphabets;
      match oxidation_states with
      | [] => c ← Composition_of_str formula; Ok (c, oxidation_states_dict)
      | t0 :: oxs =>
          l ← Py.split1 formula t0;
          '(before, after) ← unpack2 l;
          rest ← split_rest after oxs;
          let formula_plain := before :: rest in
          d ← assign_states oxidation_states_dict formula_plain oxidation_states;
          c ← Composition_of_str (Py.join EmptyString formula_plain);
          Ok (c, d)
      end
  end.
End Parser.
End OxidationStateParser.

(** The argument [comp] of [get_property]: a [Composition] object or a
    formula string. *)
Inductive comp_arg : Type :=
  | CompObj (c : Composition)
  | CompStr (formula : string).

(** ** The table-backed source *)

Module MagpieData.

(** A directory: file names and the lines [readlines()] gives. *)
Definition directory : Type := list (string * list string).

Record t : Type := {
  all_elemental_props : gmap string (gmap string table_value);
  available_props : list string
}.

(** [glob("*.table")]: names that end in [.table] and do not start with a
    dot. *)
Definition glob_table (dir : directory) : list string :=
  filter (fun name =>
            Is_true (Py.is_suffix_from (String.length name) ".table" name
                     && negb (bool_decide (Py.strip_prefix "." name <> None))))
         (map fst dir).

(** [open(os.path.join(data_dir, name))] and [readlines()]. *)
Fixpoint readlines (dir : directory) (name : string) : res (list string) :=
  match dir with
  | [] => Raise (IOError name)
  | (n, lines) :: dir' => if String.eqb n name then Ok lines else readlines dir' name
  end.

Section Table.
Context `{Pymatgen}.

(** [[float(i) for i in l]]; [None] when some [float(i)] raises
    [ValueError]. *)
Fixpoint floats_of (l : list string) : option (list pyfloat) :=
  match l with
  | [] => Some []
  | x :: l' =>
      match float_of_str x with
      | Some v => match floats_of l' with Some vs => Some (v :: vs) | None => None end
      | None => None
      end
  end.

(** Lines 73-79: the [try] block on one line of a file, once the line has
    been read. *)
Definition parse_cell (descriptor_name line : string) : table_value :=
  if bool_decide (descriptor_name ∈ ["OxidationStates"]) then
    match floats_of (Py.split_ws line) with
    | Some l => VList l
    | None => VFloat FNaN
    end
  else
    match float_of_str line with
    | Some v => VFloat v
    | None => VFloat FNaN
    end.

(** [self.all_elemental_props[name][sym] = v] on the [defaultdict(dict)]. *)
Definition store (tbl : gmap string (gmap string table_value))
    (name sym : string) (v : table_value) : gmap string (gmap string table_value) :=
  <[name := <[sym := v]> (default ∅ (tbl !! name))]> tbl.

(** Lines 72-80: the loop over the atomic numbers. [lines[atomic_no - 1]]
    raises [IndexError], which [except ValueError] does not catch. *)
Fixpoint parse_rows (descriptor_name : string) (lines : list string)
    (atomic_nos : list nat) (tbl : gmap string (gmap string table_value))
  : res (gmap string (gmap string table_value)) :=
  match atomic_nos with
  | [] => Ok tbl
  | atomic_no :: rest =>
      match lines !! (atomic_no - 1)%nat with
      | None => Raise IndexError
      | Some line =>
          parse_rows descriptor_name lines rest
            (store tbl descriptor_name (from_Z atomic_no) (parse_cell descriptor_name line))
      end
  end.

(** Lines 69-80: the loop over [self.available_props]. *)
Fixpoint parse_files (dir : directory) (props : list string)
    (tbl : gmap string (gmap string table_value))
  : res (gmap string (gmap string table_value)) :=
  match props with
  | [] => Ok tbl
  | descriptor_name :: rest =>
      lines ← readlines dir (descriptor_name +:+ ".table");
      tbl' ← parse_rows descriptor_name lines (seq 1 pt_data_len) tbl;
      parse_files dir rest tbl'
  end.

Definition _parse (dir : directory) (available : list string)
  : res (gmap string (gmap string table_value)) :=
  parse_files dir available ∅.

(** [__init__]: the properties are discovered, then parsed. *)
Definition init (dir : directory) : res t :=
  let available := map (fun f => Py.replace f ".table" EmptyString) (glob_table dir) in
  tbl ← _parse dir available;
  Ok {| all_elemental_props := tbl; available_props := available |}.

(** [Composition(comp)]. *)
Definition Composition_ctor (comp : comp_arg) : res Composition :=
  match comp with
  | CompObj c => Ok c
  | CompStr formula => Composition_of_str formula
  end.

Definition unknown_property_message (available : list string) : string :=
  "This descriptor is not available from the Magpie repository. Choose from "
  +:+ Py.repr_list available.

(** [self.all_elemental_props[property_name][el]]. *)
Definition table_get (self : t) (property_name el : string) : res table_value :=
  match default ∅ (all_elemental_props self !! property_name) !! el with
  | Some v => Ok v
  | None => Raise (KeyError (KStr el))
  end.

(** Lines 93-95: the comprehension; the value of an element is looked up
    once per atom, so not at all for an element with no atom. *)
Fixpoint expand (self : t) (property_name : string) (el_amt : list (string * Q))
    (symbols : list string) : res (list table_value) :=
  match symbols with
  | [] => Ok []
  | el :: rest =>
      amt ← dict_get el_amt el;
      vs ← match Z.to_nat (Py.int_of_float amt) with
           | O => Ok []
           | S n => v ← table_get self property_name el; Ok (replicate (S n) v)
           end;
      more ← expand self property_name el_amt rest;
      Ok (vs ++ more)%list
  end.

Definition get_property (self : t) (comp : comp_arg) (property_name : string)
  : res (list table_value) :=
  c ← Composition_ctor comp;
  if bool_decide (property_name ∈ available_props self) then
    let el_amt := get_el_amt_dict c in
    let symbols := sorted el_amt.*1 in
    expand self property_name el_amt symbols
  else Raise (ValueError (unknown_property_message (available_props self))).

End Table.
End MagpieData.

(** ** The live-attribute source *)

(** What a call leaves behind: the lines it printed and its outcome. *)
Record io (A : Type) : Type := IO { printed : list string; outcome : res A }.
Arguments IO {A} printed outcome.
Arguments printed {A} i.
Arguments outcome {A} i.

#[global] Instance io_ret : MRet io := fun A a => IO [] (Ok a).
#[global] Instance io_bind : MBind io := fun A B k m =>
  match outcome m with
  | Ok a => IO (printed m ++ printed (k a))%list (outcome (k a))
  | Raise e => IO (printed m) (Raise e)
  end.

Definition lift {A : Type} (r : res A) : io A := IO [] r.
Definition print (line : string) : io unit := IO [line] (Ok tt).
Definition raise {A : Type} (e : exn) : io A := IO [] (Raise e).

Module PymatgenData.
Import OxidationStateParser.

(** The named tuple [eldata_tup]. *)
Record eldata_tup : Type := {
  element : string;
  propname : string;
  propvalue : option pyfloat;
  propunit : option string;
  amt : Q
}.

Section Live.
Context `{Pymatgen}.

(** Lines 132-133: [dict([(str(sp.element), sp.oxi_state) for sp in
    comp.elements])]; a plain [Element] has no attribute [element]. *)
Fixpoint species_states (elements : list Specie) : res (list (string * Z)) :=
  match elements with
  | [] => Ok []
  | sp :: rest =>
      match oxi_state sp with
      | None => Raise (AttributeError "element")
      | Some o => l ← species_states rest; Ok ((symbol sp, o) :: l)
      end
  end.

(** [dict(l)]: a later pair overwrites an earlier one with the same key. *)
Definition dict_of (l : list (string * Z)) : gmap string Z :=
  fold_left (fun d '(k, v) => <[k := v]> d) l ∅.

(** Lines 127-138: the composition and the oxidation states of the call. *)
Definition resolve (comp : comp_arg) : res (Composition * gmap string Z) :=
  match comp with
  | CompObj c =>
      match c with
      | [] => Raise IndexError
      | (sp0, _) :: _ =>
          match oxi_state sp0 with
          | Some _ => l ← species_states (map fst c); Ok (c, dict_of l)
          | None => Ok (c, ∅)
          end
      end
  | CompStr formula => get_composition_oxidation_state formula
  end.

(** [float(p)]. *)
Definition float_of_attr (p : attr) : res pyfloat :=
  match p with
  | PNum v _ => Ok v
  | PStr s =>
      match float_of_str s with
      | Some v => Ok v
      | None => Raise (ValueError ("could not convert string to float: " +:+ Py.repr s))
      end
  | _ => Raise TypeError
  end.

(** [p.unit]. *)
Definition unit_of_attr (p : attr) : res string :=
  match p with
  | PNum _ (Some u) => Ok u
  | _ => Raise (AttributeError "unit")
  end.

(** [element.ionic_radii[oxidation_states[el_sym]]]: the index is evaluated
    first, then the radii, a dict in pymatgen, are subscripted. A number
    cannot be subscripted; a string could, and would give a string: radii
    of that kind are not followed. *)
Definition ionic_radius (p : attr) (oxidation_states : gmap string Z) (el_sym : string)
  : res pyfloat :=
  match oxidation_states !! el_sym with
  | None => Raise (KeyError (KStr el_sym))
  | Some o =>
      match p with
      | PDict radii =>
          match radii !! o with
          | Some r => Ok r
          | None => Raise (KeyError (KInt o))
          end
      | _ => Raise TypeError
      end
  end.

Definition missing_oxidation_state_message (property_name : string) : string :=
  "oxidation state not given for " +:+ property_name
  +:+ "; It does not yield a unique number per Element".

Definition unitless : list string :=
  ["X"; "Z"; "group"; "row"; "number"; "mendeleev_no"; "ionic_radii"].

(** Lines 148-152: [getattr] in its [try] block. *)
Definition read_attr (el property_name : string) : io attr :=
  match getattr el property_name with
  | Some p => mret p
  | None =>
      _ ← print (property_name +:+ " attribute missing");
      raise (AttributeError property_name)
  end.

(** Lines 154-170: the value and the unit of one element. *)
Definition value_and_unit (oxidation_states : gmap string Z)
    (el_sym property_name : string) (p : attr)
  : res (option pyfloat * option string) :=
  match p with
  | PNone => Ok (None, None)
  | _ =>
      '(property_value, property_units) ←
        (if bool_decide (property_name ∈ ["ionic_radii"]) then
           if bool_decide (oxidation_states <> ∅) then
             r ← ionic_radius p oxidation_states el_sym; Ok (Some r, Some "ang")
           else Raise (ValueError (missing_oxidation_state_message property_name))
         else v ← float_of_attr p; Ok (Some v, None));
      if bool_decide (property_name ∈ unitless) then Ok (property_value, property_units)
      else u ← unit_of_attr p; Ok (property_value, Some u)
  end.

(** Lines 142-179: the loop over the sorted symbols; its state is
    [eldata] and [eldata_tup_lst]. *)
Fixpoint loop (oxidation_states : gmap string Z) (el_amt_dict : list (string * Q))
    (property_name : string) (symbols : list string)
    (eldata : list (option pyfloat)) (eldata_tup_lst : list eldata_tup)
  : io (list (option pyfloat)) :=
  match symbols with
  | [] => mret eldata
  | el_sym :: rest =>
      el ← lift (Element el_sym);
      p ← read_attr el property_name;
      '(property_value, property_units) ←
        lift (value_and_unit oxidation_states el_sym property_name p);
      a ← lift (dict_get el_amt_dict el_sym);
      let tup := {| element := el_sym; propname := property_name;
                    propvalue := property_value; propunit := property_units;
                    amt := a |} in
      loop oxidation_states el_amt_dict property_name rest
        (eldata ++ per_atom property_value a)%list (eldata_tup_lst ++ [tup])%list
  end.

Definition get_property (comp : comp_arg) (property_name : string)
  : io (list (option pyfloat)) :=
  '(c, oxidation_states) ← lift (resolve comp);
  let el_amt_dict := get_el_amt_dict c in
  let symbols := sorted el_amt_dict.*1 in
  loop oxidation_states el_amt_dict property_name symbols [] [].

End Live.
End PymatgenData.

(** ** A small periodic table

    An instance of the collaborators on which the model runs: the first 26
    elements, formulas made of element symbols followed by an optional
    integer amount, decimal literals for floats, and a directory of three
    property files. *)

Module Sample.

Definition is_upper (c : ascii) : bool := Py.in_range 65 90 c.
Definition is_lower (c : ascii) : bool := Py.in_range 97 122 c.

(** The element symbols by atomic number. *)
Definition symbols : list string :=
  [ "H"; "He"; "Li"; "Be"; "B"; "C"; "N"; "O"; "F";
    "Ne"; "Na"; "Mg"; "Al"; "Si"; "P"; "S"; "Cl"; "Ar";
    "K"; "Ca"; "Sc"; "Ti"; "V"; "Cr"; "Mn"; "Fe" ].

Definition plain (sym : string) (n : Z) : Specie * Q :=
  ({| symbol := sym; oxi_state := None |}, inject_Z n).

Definition ion (sym : string) (charge n : Z) : Specie * Q :=
  ({| symbol := sym; oxi_state := Some charge |}, inject_Z n).

(** A composition whose amounts are not integers: seven halves of iron and
    a half of oxygen. *)
Definition halves : Composition :=
  [({| symbol := "Fe"; oxi_state := None |}, 7 # 2);
   ({| symbol := "O"; oxi_state := None |}, 1 # 2)].

(** The species read so far, and the symbol and the digits being read. *)
Definition flush (acc : list (Specie * Q)) (sym digits : string)
  : option (list (Specie * Q)) :=
  if bool_decide (sym ∈ symbols) then
    match digits with
    | EmptyString => Some (acc ++ [plain sym 1])%list
    | _ =>
        match Py.int_digits 0 false digits with
        | Some n => Some (acc ++ [plain sym n])%list
        | None => None
        end
    end
  else None.

Fixpoint scan (acc : list (Specie * Q)) (cur : option (string * string)) (s : string)
  : option (list (Specie * Q)) :=
  match s with
  | EmptyString =>
      match cur with
      | None => Some acc
      | Some (sym, digits) => flush acc sym digits
      end
  | String c s' =>
      if is_upper c then
        match cur with
        | None => scan acc (Some (String c EmptyString, EmptyString)) s'
        | Some (sym, digits) =>
            match flush acc sym digits with
            | Some acc' => scan acc' (Some (String c EmptyString, EmptyString)) s'
            | None => None
            end
        end
      else if is_lower c then
        match cur with
        | Some (sym, EmptyString) => scan acc (Some (sym +:+ String c EmptyString, EmptyString)) s'
        | _ => None
        end
      else if Py.is_digit c then
        match cur with
        | Some (sym, digits) => scan acc (Some (sym, digits +:+ String c EmptyString)) s'
        | None => None
        end
      else if Py.is_space c then scan acc cur s'
      else None
  end.

Definition formula (s : string) : res Composition :=
  match scan [] None s with
  | Some c => Ok c
  | None => Raise (ValueError (s +:+ " is an invalid formula!"))
  end.

(** Pauling electronegativities, in hundredths. *)
Definition pauling : list (string * Z) :=
  [ ("H", 220%Z); ("Li", 98%Z); ("Be", 157%Z); ("B", 204%Z);
    ("C", 255%Z); ("N", 304%Z); ("O", 344%Z); ("F", 398%Z);
    ("Na", 93%Z); ("Mg", 131%Z); ("Al", 161%Z); ("Si", 190%Z);
    ("P", 219%Z); ("S", 258%Z); ("Cl", 316%Z); ("K", 82%Z);
    ("Ca", 100%Z); ("Sc", 136%Z); ("Ti", 154%Z); ("V", 163%Z);
    ("Cr", 166%Z); ("Mn", 155%Z); ("Fe", 183%Z) ].

(** The noble gases have no electronegativity: they are put after all
    other elements. *)
Definition electronegativity (sym : string) : Q :=
  match list_find (fun kv => kv.1 = sym) pauling with
  | Some (_, (_, x)) => x # 100
  | None => 1000 # 1
  end.

Definition radii (sym : string) : gmap Z pyfloat :=
  if String.eqb sym "O" then {[ (-2)%Z := FNum (126 # 100) ]}
  else if String.eqb sym "Na" then {[ 1%Z := FNum (116 # 100) ]}
  else if String.eqb sym "Cl" then {[ (-1)%Z := FNum (167 # 100) ]}
  else if String.eqb sym "Fe" then {[ 2%Z := FNum (92 # 100); 3%Z := FNum (785 # 1000) ]}
  else ∅.

Definition attribute (sym name : string) : option attr :=
  if String.eqb name "X" then Some (PNum (FNum (electronegativity sym)) None)
  else if String.eqb name "ionic_radii" then Some (PDict (radii sym))
  else if String.eqb name "superconduction_temperature" then Some PNone
  else if String.eqb name "atomic_mass" then
    Some (PNum (FNum (if String.eqb sym "Fe" then 55845 # 1000 else 15999 # 1000)) (Some "amu"))
  else None.

Fixpoint pow10 (n : nat) : positive :=
  match n with
  | O => 1%positive
  | S n' => (10 * pow10 n')%positive
  end.

(** A decimal literal: digits, with an optional sign and fraction. *)
Definition decimal (s : string) : option pyfloat :=
  let t := Py.strip s in
  let '(neg, body) :=
    match t with
    | String c t' => if Ascii.eqb c "-" then (true, t') else (false, t)
    | EmptyString => (false, t)
    end in
  let '(whole, frac) :=
    match Py.partition "." body with
    | Some (w, f) => (w, f)
    | None => (body, EmptyString)
    end in
  match Py.int_digits 0 false (whole +:+ frac) with
  | Some n =>
      if Py.forallb_str Py.is_digit (whole +:+ frac) then
        Some (FNum ((if neg then - n else n)%Z # pow10 (String.length frac)))
      else None
  | None => None
  end.

Definition symbol_of_Z (z : nat) : string :=
  match z with
  | O => EmptyString
  | S i => nth i symbols EmptyString
  end.

#[export] Instance world : Pymatgen := {|
  Composition_of_str := formula;
  is_element sym := bool_decide (sym ∈ symbols);
  X := electronegativity;
  getattr := attribute;
  pt_data_len := 26;
  from_Z := symbol_of_Z;
  float_of_str := decimal
|}.

(** A line of a file, as [readlines()] gives it. *)
Definition line (s : string) : string := s +:+ String (ascii_of_nat 10) EmptyString.

Definition number_table : list string := map line
  [ "1"; "2"; "3"; "4"; "5"; "6"; "7"; "8"; "9"; "10"; "11"; "12"; "13";
    "14"; "15"; "16"; "17"; "18"; "19"; "20"; "21"; "22"; "23"; "24"; "25"; "26" ].

Definition electronegativity_table : list string := map line
  [ "2.20"; "Missing"; "0.98"; "1.57"; "2.04"; "2.55"; "3.04"; "3.44"; "3.98";
    "Missing"; "0.93"; "1.31"; "1.61"; "1.90"; "2.19"; "2.58"; "3.16"; "Missing";
    "0.82"; "1.00"; "1.36"; "1.54"; "1.63"; "1.66"; "1.55"; "1.83" ].

Definition oxidation_states_table : list string := map line
  [ "1 -1"; EmptyString; "1"; "2"; "3"; "-4 2 4";
    "-3 3 5"; "-2"; "-1"; EmptyString; "1"; "2";
    "3"; "-4 4"; "-3 3 5"; "-2 4 6"; "-1 1 5 7"; EmptyString;
    "1"; "2"; "3"; "2 3 4"; "2 3 4 5"; "2 3 6";
    "2 4 7"; "2 3" ].

Definition data_dir : MagpieData.directory :=
  [ ("Number.table", number_table);
    ("README.txt", [line "Elemental property tables"]);
    ("Electronegativity.table", electronegativity_table);
    ("OxidationStates.table", oxidation_states_table) ].

(** A directory with a property file that stops after lithium. *)
Definition short_dir : MagpieData.directory :=
  [ ("Number.table", number_table);
    ("Electronegativity.table", take 3 electronegativity_table) ].

(** The table built from [data_dir]. *)
Definition magpie : MagpieData.t :=
  match MagpieData.init data_dir with
  | Ok self => self
  | Raise _ => {| MagpieData.all_elemental_props := ∅; MagpieData.available_props := [] |}
  end.

End Sample.

(** ** Vocabulary of the statements *)

Section Vocabulary.
Context `{Pymatgen}.

(** Ascending order of electronegativity. *)
Definition ascending (l : list string) : Prop :=
  StronglySorted (fun a b => (X a <= X b)%Q) l.

(** The amount of an element; [0] for an element that is not a key. *)
Definition amount (d : list (string * Q)) (k : string) : Q :=
  match dict_get d k with
  | Ok a => a
  | Raise _ => 0%Q
  end.

(** The number of atoms of an element: [int(el_amt[el])]. *)
Definition atoms (d : list (string * Q)) (k : string) : nat :=
  Z.to_nat (Py.int_of_float (amount d k)).

(** The cell of the table for a property and an element; not-a-number
    stands for a cell that does not exist. *)
Definition cell (self : MagpieData.t) (property_name el : string) : table_value :=
  default (VFloat FNaN)
    (default ∅ (MagpieData.all_elemental_props self !! property_name) !! el).

(** The value the live-attribute source resolves for an element; [None]
    (Python's [None]) also stands for a value that does not resolve. *)
Definition resolved (oxidation_states : gmap string Z) (property_name el : string)
  : option pyfloat :=
  match getattr el property_name with
  | Some p =>
      match PymatgenData.value_and_unit oxidation_states el property_name p with
      | Ok (v, _) => v
      | Raise _ => None
      end
  | None => None
  end.

(** [x] occurs in [s]. *)
Definition occurs_in (x s : string) : Prop :=
  exists pre post : string, s = pre +:+ x +:+ post.

(** The live-attribute source resolves a value for an element: the symbol
    is an element, the attribute exists, and lines 154-170 raise nothing. *)
Definition resolves (oxidation_states : gmap string Z) (property_name el : string)
  : Prop :=
  is_element el = true /\
  exists (p : attr) (u : option string),
    getattr el property_name = Some p /\
    PymatgenData.value_and_unit oxidation_states el property_name p
    = Ok (resolved oxidation_states property_name el, u).

(** The table has the cell of every element that has an atom. *)
Definition stored (self : MagpieData.t) (property_name : string)
    (el_amt : list (string * Q)) (el : string) : Prop :=
  (0 < atoms el_amt el)%nat ->
  MagpieData.table_get self property_name el = Ok (cell self property_name el).


(** The row of a property in the table ([defaultdict(dict)]). *)
Definition row (tbl : gmap string (gmap string table_value)) (name : string)
  : gmap string table_value :=
  default ∅ (tbl !! name).


End Vocabulary.

(** ** The parser as the specification words it

    The algorithm of the specification, written from its sentences. Three
    readings of these sentences are left open: the class [cls] of
    characters on whose runs the formula is split (the specification says:
    lowercase letters), how a segment is read, [trim] (the specification
    takes it as it is), and whether the text after the last token stays in
    the plain formula, [keep_rest] (the specification removes the tokens
    and nothing else). It gives the plain formula as a string and the
    oxidation-state map. *)

Module Spec.
Section SpecParser.
Context `{Pymatgen}.









End SpecParser.
End Spec.

(** Lowercase letters, and a segment taken as it is, as the specification
    has them. *)
Definition is_lower (c : ascii) : bool := Py.in_range 97 122 c.

(** ** Decorated formulas *)

















(** ** Vocabulary of the further properties *)

(** The number of atoms of a composition: the sum of [int(amount)] over
    its elements. *)
Definition total_atoms (d : list (string * Q)) : nat :=
  sum_list_with (atoms d) d.*1.

(** The parts [p0, p1, ...] with the tokens [t0, t1, ...] put back after
    them, followed by [rest]: [p0 t0 p1 t1 ... rest]. *)
Fixpoint weave (parts toks : list string) (rest : string) : string :=
  match parts, toks with
  | part :: parts', t :: toks' => part +:+ t +:+ weave parts' toks' rest
  | _, _ => rest
  end.

(** [float(p)] and the unit of a numeric attribute are there for the
    property: the attribute is a number, and it has a unit or the property
    is one of those whose unit is not read. *)
Definition numeric_for (property_name : string) (p : attr) (v : pyfloat) : Prop :=
  property_name <> "ionic_radii" /\
  exists u : option string,
    p = PNum v u /\ (property_name ∈ PymatgenData.unitless \/ u <> None).

(** The sample periodic table with one more attribute, [is_metal], a
    number without a unit. *)
Definition flagged_attribute (sym name : string) : option attr :=
  if String.eqb name "is_metal" then
    Some (PNum (FNum (if bool_decide (sym ∈ ["H"; "O"; "Cl"]) then 0 else 1)) None)
  else Sample.attribute sym name.

Definition flagged_world : Pymatgen := {|
  Composition_of_str := Sample.formula;
  is_element sym := bool_decide (sym ∈ Sample.symbols);
  X := Sample.electronegativity;
  getattr := flagged_attribute;
  pt_data_len := 26;
  from_Z := Sample.symbol_of_Z;
  float_of_str := Sample.decimal
|}.

(** * Running the model *)

Example re_split_letters : Py.re_split_plus Py.is_alpha "Fe2+3O3-2" = [EmptyString; "2+3"; "3-2"].
Proof. reflexivity. Qed.

Example re_split_letters_NaCl : Py.re_split_plus Py.is_alpha "NaCl" = [EmptyString; EmptyString].
Proof. reflexivity. Qed.

Example re_split_digit : Py.re_split_one Py.is_digit "Fe23" = ["Fe"; EmptyString; EmptyString].
Proof. reflexivity. Qed.

Example split1_ex : Py.split1 "Fe2+3O3-2" "+3" = Ok ["Fe2"; "O3-2"].
Proof. reflexivity. Qed.

Example int_ex : Py.int "-2" = Ok (-2)%Z /\ Py.int " +1_0 " = Ok 10%Z /\ Py.int "3" = Ok 3%Z.
Proof. repeat split; reflexivity. Qed.

Example int_separator_ex :
  Py.strip (String (ascii_of_nat 31) "1") = "1" /\
  Py.int (String (ascii_of_nat 31) "1")
  = Raise (ValueError "invalid literal for int() with base 10: '\x1f1'") /\
  Py.int (String (ascii_of_nat 160) "1") = Ok 1%Z.
Proof. by split_and!. Qed.

Example repr_list_ex : Py.repr_list ["Number"; "it's"] = "['Number', " +:+ String Py.dquote ("it's" +:+ String Py.dquote "]").
Proof. reflexivity. Qed.

Example replace_ex : Py.replace "X.table" ".table" EmptyString = "X".
Proof. reflexivity. Qed.

Example sample_formula :
  Sample.formula "Fe2O3" = Ok [Sample.plain "Fe" 2; Sample.plain "O" 3].
Proof. reflexivity. Qed.

Example sample_parse_NaCl :
  OxidationStateParser.get_composition_oxidation_state (H := Sample.world) "NaCl"
  = Ok ([Sample.plain "Na" 1; Sample.plain "Cl" 1], ∅).
Proof. vm_compute. reflexivity. Qed.

Example sample_parse_Fe2O3 :
  OxidationStateParser.get_composition_oxidation_state (H := Sample.world) "Fe2+3O3-2"
  = Ok ([Sample.plain "Fe" 2; Sample.plain "O" 3], {[ "Fe" := 3%Z; "O" := (-2)%Z ]}).
Proof. vm_compute. reflexivity. Qed.

(** * Properties of the string primitives *)

Section StringFacts.

Lemma existsb_str_lstrip (q : ascii -> bool) (s : string) :
  Py.existsb_str q (Py.lstrip s) = true -> Py.existsb_str q s = true.
Proof.
  induction s as [|c s IH]; simpl; [done|].
  destruct (Py.is_space c); simpl; [|done].
  intros Hq. rewrite IH by done. apply orb_true_r.
Qed.

Lemma existsb_str_rstrip (q : ascii -> bool) (s : string) :
  Py.existsb_str q (Py.rstrip s) = true -> Py.existsb_str q s = true.
Proof.
  induction s as [|c s IH]; simpl; [done|].
  destruct (Py.rstrip s) as [|c' r] eqn:Hr.
  - destruct (Py.is_space c); simpl; [done|].
    rewrite orb_false_r. intros ->. done.
  - simpl in *. destruct (q c); simpl; [done|]. exact IH.
Qed.

Lemma existsb_str_strip (q : ascii -> bool) (s : string) :
  Py.existsb_str q (Py.strip s) = true -> Py.existsb_str q s = true.
Proof.
  unfold Py.strip. intros Hq.
  by apply existsb_str_lstrip, existsb_str_rstrip.
Qed.

(** A piece of a split has only characters of the string that is split. *)
Lemma existsb_str_split_plus (p q : ascii -> bool) (s : string) :
  forall (b : bool) (piece : string),
    piece ∈ Py.re_split_plus_from p b s ->
    Py.existsb_str q piece = true -> Py.existsb_str q s = true.
Proof.
  induction s as [|c s IH]; intros b piece; simpl.
  - intros ->%list_elem_of_singleton. done.
  - destruct (p c).
    + destruct b.
      * intros Hin Hq. rewrite (IH _ _ Hin Hq). apply orb_true_r.
      * intros [->|Hin]%elem_of_cons Hq; [done|].
        rewrite (IH _ _ Hin Hq). apply orb_true_r.
    + destruct (Py.re_split_plus_from p false s) as [|h t] eqn:Hs; simpl.
      * intros ->%list_elem_of_singleton. simpl. rewrite orb_false_r. intros ->. done.
      * intros [->|Hin]%elem_of_cons Hq.
        -- simpl in Hq. destruct (q c); simpl; [done|].
           apply (IH false h); [rewrite Hs; left | done].
        -- rewrite (IH false piece) by (rewrite ?Hs; by try right).
           apply orb_true_r.
Qed.

Lemma tokens_of_no_sign (l : list string) :
  (forall na, na ∈ l -> Py.has_sign (Py.strip na) = false) ->
  OxidationStateParser.tokens_of l = Ok [].
Proof.
  induction l as [|na l IH]; intros Hl; simpl; [done|].
  rewrite (Hl na) by left. rewrite andb_false_r.
  apply IH. intros na' Hin. apply Hl. by right.
Qed.

End StringFacts.

(** * The oxidation-state parser *)

Section ParserFacts.
Context `{Pymatgen}.
Import OxidationStateParser.

(** C2: parsing ["Fe2+3O3-2"] gives the oxidation states [Fe: 3, O: -2] and
    the composition of the plain formula ["Fe2O3"] (iron and oxygen being
    elements of the periodic table, and ["Fe2O3"] a formula the formula
    parser accepts). *)
Theorem parse_Fe2O3_decorated (c : Composition) :
  is_element "Fe" = true -> is_element "O" = true ->
  Composition_of_str "Fe2O3" = Ok c ->
  get_composition_oxidation_state "Fe2+3O3-2"
  = Ok (c, {[ "Fe" := 3%Z; "O" := (-2)%Z ]}).
Proof.
  intros HFe HO Hc.
  unfold get_composition_oxidation_state.
  change (Py.re_split_plus Py.is_alpha "Fe2+3O3-2") with [EmptyString; "2+3"; "3-2"].
  change (tokens_of [EmptyString; "2+3"; "3-2"]) with (Ok ["+3"; "-2"]).
  cbn [mbind res_bind rbind].
  change (Py.split1 "Fe2+3O3-2" "+3") with (Ok ["Fe2"; "O3-2"]).
  cbn [mbind res_bind rbind unpack2 split_rest].
  change (Py.split1 "O3-2" "-2") with (Ok ["O3"; EmptyString]).
  cbn [mbind res_bind rbind unpack2 split_rest assign_states].
  change (Py.int "+3") with (Ok 3%Z). change (Py.int "-2") with (Ok (-2)%Z).
  change (hd EmptyString (Py.re_split_one Py.is_digit (Py.strip "Fe2"))) with "Fe".
  change (hd EmptyString (Py.re_split_one Py.is_digit (Py.strip "O3"))) with "O".
  unfold Element. rewrite HFe, HO.
  cbn [mbind res_bind rbind].
  change (Py.join EmptyString ["Fe2"; "O3"]) with "Fe2O3".
  rewrite Hc. reflexivity.
Qed.

(** A formula without ['+'] and ['-'] has no token. *)
Lemma tokens_of_undecorated (formula : string) :
  Py.has_sign formula = false ->
  tokens_of (Py.re_split_plus Py.is_alpha formula) = Ok [].
Proof.
  intros Hns. apply tokens_of_no_sign.
  intros na Hin. destruct (Py.has_sign (Py.strip na)) eqn:Hs; [|done].
  unfold Py.has_sign in *. apply existsb_str_strip in Hs.
  apply (existsb_str_split_plus _ _ _ _ _ Hin) in Hs. congruence.
Qed.

(** C4: on a formula without ['+'] and ['-'] the parser returns what the
    formula parser makes of the formula itself, with an empty
    oxidation-state map. *)
Theorem parse_undecorated (formula : string) :
  Py.has_sign formula = false ->
  get_composition_oxidation_state formula
  = (c ← Composition_of_str formula; Ok (c, ∅)).
Proof.
  intros Hns. unfold get_composition_oxidation_state.
  destruct (Py.re_split_plus Py.is_alpha formula) as [|na nas] eqn:Hsplit; [done|].
  pose proof (tokens_of_undecorated formula Hns) as Htokens.
  rewrite Hsplit in Htokens. rewrite Htokens. done.
Qed.

End ParserFacts.

Lemma parse_Fe2O3_decorated_witness :
  OxidationStateParser.get_composition_oxidation_state (H := Sample.world) "Fe2+3O3-2"
  = Ok ([Sample.plain "Fe" 2; Sample.plain "O" 3], {[ "Fe" := 3%Z; "O" := (-2)%Z ]}).
Proof.
  apply (parse_Fe2O3_decorated (H := Sample.world)); reflexivity.
Defined.

Lemma parse_undecorated_witness :
  Py.has_sign "NaCl" = false /\
  OxidationStateParser.get_composition_oxidation_state (H := Sample.world) "NaCl"
  = (c ← Sample.formula "NaCl"; Ok (c, ∅)).
Proof.
  split; [reflexivity|].
  apply (parse_undecorated (H := Sample.world)). reflexivity.
Defined.

(** * Ordering by electronegativity *)

Section SortFacts.
Context `{Pymatgen}.

Lemma insert_sorted_perm (x : string) (l : list string) :
  insert_sorted x l ≡ₚ x :: l.
Proof.
  induction l as [|y l IH]; simpl; [done|].
  destruct (Qlt_le_dec (X y) (X x)); [|done].
  rewrite IH. apply Permutation_swap.
Qed.

Lemma sorted_perm (l : list string) : sorted l ≡ₚ l.
Proof.
  induction l as [|x l IH]; simpl; [done|].
  by rewrite insert_sorted_perm, IH.
Qed.

Lemma insert_sorted_ascending (x : string) (l : list string) :
  ascending l -> ascending (insert_sorted x l).
Proof.
  unfold ascending. induction 1 as [|y l Hl IH Hy]; simpl.
  - repeat constructor.
  - destruct (Qlt_le_dec (X y) (X x)) as [Hlt|Hle].
    + constructor; [done|].
      rewrite insert_sorted_perm. constructor; [by apply Qlt_le_weak | done].
    + constructor; [by constructor|].
      constructor; [done|].
      eapply Forall_impl; [exact Hy|]. simpl. intros z Hz.
      by apply Qle_trans with (X y).
Qed.

Lemma sorted_ascending (l : list string) : ascending (sorted l).
Proof.
  induction l as [|x l IH]; simpl; [constructor|].
  by apply insert_sorted_ascending.
Qed.

(** The sort is stable: elements of equal electronegativity keep the order
    they had. *)
Lemma insert_sorted_stable (k : Q) (x : string) (l : list string) :
  filter (fun s => Qeq_bool (X s) k = true) (insert_sorted x l)
  = filter (fun s => Qeq_bool (X s) k = true) (x :: l).
Proof.
  induction l as [|y l IH]; simpl; [done|].
  destruct (Qlt_le_dec (X y) (X x)) as [Hlt|Hle]; [|done].
  rewrite !filter_cons in *. rewrite IH.
  destruct (decide (Qeq_bool (X y) k = true)) as [Hy|Hy];
    destruct (decide (Qeq_bool (X x) k = true)) as [Hx|Hx]; try done.
  apply Qeq_bool_iff in Hy, Hx. rewrite Hy, Hx in Hlt.
  by apply Qlt_irrefl in Hlt.
Qed.

Lemma sorted_stable (k : Q) (l : list string) :
  filter (fun s => Qeq_bool (X s) k = true) (sorted l)
  = filter (fun s => Qeq_bool (X s) k = true) l.
Proof.
  induction l as [|x l IH]; simpl; [done|].
  rewrite insert_sorted_stable, !filter_cons, IH. done.
Qed.

Lemma sorted_pair (a b : string) (l : list string) :
  (X a < X b)%Q -> l ≡ₚ [a; b] -> sorted l = [a; b].
Proof.
  intros Hlt Hp. symmetry in Hp. apply Permutation_length_2_inv in Hp as [->| ->]; simpl.
  - destruct (Qlt_le_dec (X b) (X a)) as [Hba|_]; [|done].
    exfalso. apply (Qlt_irrefl (X a)). by apply Qlt_trans with (X b).
  - destruct (Qlt_le_dec (X a) (X b)) as [_|Hba]; [done|].
    exfalso. apply (Qlt_irrefl (X a)). by apply Qlt_le_trans with (X b).
Qed.

End SortFacts.

(** * The element->amount dictionary *)

Section DictFacts.

Lemma dict_get_key (d : list (string * Q)) (k : string) :
  k ∈ d.*1 -> dict_get d k = Ok (amount d k).
Proof.
  unfold amount. induction d as [|[k' a] d IH]; simpl.
  - by intros ?%elem_of_nil.
  - destruct (String.eqb_spec k' k) as [->|Hne]; [done|].
    intros [->|Hin]%elem_of_cons; [done|]. by apply IH.
Qed.

Lemma dict_add_keys (d : list (string * Q)) (k : string) (a : Q) :
  (dict_add d k a).*1 = if bool_decide (k ∈ d.*1) then d.*1 else (d.*1 ++ [k])%list.
Proof.
  induction d as [|[k' a'] d IH]; csimpl; [done|].
  destruct (String.eqb_spec k' k) as [->|Hne]; csimpl.
  - rewrite bool_decide_eq_true_2 by left. done.
  - rewrite IH. destruct (decide (k ∈ d.*1)) as [Hin|Hin].
    + rewrite !bool_decide_eq_true_2; [done| by right | done].
    + rewrite !bool_decide_eq_false_2; [done| |done].
      intros [?|?]%elem_of_cons; congruence.
Qed.

Lemma dict_add_NoDup (d : list (string * Q)) (k : string) (a : Q) :
  NoDup d.*1 -> NoDup (dict_add d k a).*1.
Proof.
  intros Hd. rewrite dict_add_keys. case_bool_decide as Hin; [done|].
  apply NoDup_app. split_and!; [done| |apply NoDup_singleton].
  intros x Hx ->%list_elem_of_singleton. done.
Qed.

(** The keys of [get_el_amt_dict] are distinct, as those of a dictionary. *)
Lemma get_el_amt_dict_NoDup (c : Composition) : NoDup (get_el_amt_dict c).*1.
Proof.
  unfold get_el_amt_dict.
  assert (Hgen : forall d : list (string * Q), NoDup d.*1 ->
            NoDup (fold_left (fun d '(sp, a) => dict_add d (symbol sp) a) c d).*1).
  { induction c as [|[sp a] c IH]; intros d Hd; simpl; [done|].
    apply IH. by apply dict_add_NoDup. }
  apply Hgen. constructor.
Qed.

End DictFacts.

(** * The expansion into one value per atom *)

Section ExpansionFacts.
Context `{Pymatgen}.

Lemma table_get_cell (self : MagpieData.t) (property_name el : string) (v : table_value) :
  MagpieData.table_get self property_name el = Ok v -> cell self property_name el = v.
Proof.
  unfold MagpieData.table_get, cell.
  destruct (default ∅ (MagpieData.all_elemental_props self !! property_name) !! el);
    simpl; congruence.
Qed.

Lemma per_atom_amount {A : Type} (v : A) (d : list (string * Q)) (el : string) :
  per_atom v (amount d el) = replicate (atoms d el) v.
Proof. reflexivity. Qed.

(** [int()] truncates towards zero: as a number of turns of [range], it is
    the floor of the amount, and no turn for an amount below one. *)
Lemma int_of_float_floor (q : Q) : Z.to_nat (Py.int_of_float q) = Z.to_nat (Qfloor q).
Proof.
  destruct q as [n d]. unfold Py.int_of_float, Qfloor. cbn [Qnum Qden].
  destruct (Z_le_gt_dec 0 n) as [Hn|Hn].
  - by rewrite Z.quot_div_nonneg by lia.
  - assert (Hq : (n ÷ Z.pos d <= 0)%Z) by (apply Z.quot_le_upper_bound; lia).
    assert (Hd : (n / Z.pos d < 0)%Z) by (apply Z.div_lt_upper_bound; lia).
    lia.
Qed.

Lemma per_atom_floor {A : Type} (v : A) (q : Q) :
  per_atom v q = replicate (Z.to_nat (Qfloor q)) v.
Proof. unfold per_atom. by rewrite int_of_float_floor. Qed.

Lemma atoms_floor (d : list (string * Q)) (k : string) :
  atoms d k = Z.to_nat (Qfloor (amount d k)).
Proof. apply int_of_float_floor. Qed.

(** An element has an atom exactly when its amount is at least one. *)
Lemma atoms_pos (d : list (string * Q)) (k : string) :
  (0 < atoms d k)%nat <-> (1 <= amount d k)%Q.
Proof.
  rewrite atoms_floor. split.
  - intros Hpos. assert (Hf : (1 <= Qfloor (amount d k))%Z) by lia.
    eapply Qle_trans; [|apply Qfloor_le]. change 1%Q with (inject_Z 1).
    by rewrite <- Zle_Qle.
  - intros Hone. apply Qfloor_resp_le in Hone. change (Qfloor 1) with 1%Z in Hone. lia.
Qed.

Lemma flat_map_per_atom_floor {A : Type} (v : string -> A) (d : list (string * Q))
    (symbols : list string) :
  flat_map (fun el => per_atom (v el) (amount d el)) symbols
  = flat_map (fun el => replicate (Z.to_nat (Qfloor (amount d el))) (v el)) symbols.
Proof.
  induction symbols as [|el symbols IH]; [done|].
  simpl. by rewrite IH, per_atom_floor.
Qed.

Lemma stored_at_least_one (self : MagpieData.t) (property_name : string)
    (d : list (string * Q)) (symbols : list string) :
  Forall (stored self property_name d) symbols ->
  Forall (fun el => (1 <= amount d el)%Q ->
            MagpieData.table_get self property_name el = Ok (cell self property_name el))
    symbols.
Proof.
  intros Hst. eapply Forall_impl; [exact Hst|].
  intros el Hel Hone. apply Hel. by apply atoms_pos.
Qed.

(** The comprehension of the table-backed source returns exactly when the
    cells it reads exist, and then returns the expansion. *)
Lemma expand_spec (self : MagpieData.t) (property_name : string)
    (el_amt : list (string * Q)) (symbols : list string) (l : list table_value) :
  symbols ⊆ el_amt.*1 ->
  MagpieData.expand self property_name el_amt symbols = Ok l <->
  Forall (stored self property_name el_amt) symbols /\
  l = flat_map (fun el => per_atom (cell self property_name el) (amount el_amt el)) symbols.
Proof.
  revert l. induction symbols as [|el symbols IH]; intros l Hsub; simpl.
  - split; [intros [= <-]; by split | intros [_ ->]; done].
  - assert (Hel : el ∈ el_amt.*1) by (apply Hsub; left).
    assert (Hrest : symbols ⊆ el_amt.*1) by (intros x Hx; apply Hsub; by right).
    rewrite (dict_get_key _ _ Hel). cbn [mbind res_bind rbind].
    rewrite per_atom_amount. unfold stored at 1. fold (atoms el_amt el).
    destruct (atoms el_amt el) as [|n] eqn:Hn; cbn [mbind res_bind rbind].
    + destruct (MagpieData.expand self property_name el_amt symbols) as [more|e] eqn:Hm;
        cbn [rbind].
      * destruct (IH more Hrest) as [[Hst ->] _]; [done|]. split.
        -- intros [= <-]. split; [|done]. constructor; [|done].
           unfold stored. rewrite Hn. lia.
        -- intros [_ ->]. done.
      * split; [done|]. intros [Hst ->]. apply Forall_cons in Hst as [_ Hst].
        discriminate (proj2 (IH _ Hrest) (conj Hst eq_refl)).
    + destruct (MagpieData.table_get self property_name el) as [v|e] eqn:Hv;
        cbn [rbind].
      * apply table_get_cell in Hv as Hc. subst v.
        destruct (MagpieData.expand self property_name el_amt symbols) as [more|e] eqn:Hm;
          cbn [rbind].
        -- destruct (IH more Hrest) as [[Hst ->] _]; [done|]. split.
           ++ intros [= <-]. split; [|done]. constructor; [|done]. by intros _.
           ++ intros [_ ->]. done.
        -- split; [done|]. intros [Hst ->]. apply Forall_cons in Hst as [_ Hst].
           discriminate (proj2 (IH _ Hrest) (conj Hst eq_refl)).
      * split; [done|]. intros [Hst _]. apply Forall_cons in Hst as [Hst _].
        unfold stored in Hst. rewrite Hn, Hv in Hst.
        discriminate Hst. lia.
Qed.

End ExpansionFacts.

(** * The live-attribute loop *)

Section LoopFacts.
Context `{Pymatgen}.
Import PymatgenData.

Lemma io_bind_lift_ok {A B : Type} (a : A) (k : A -> io B) : lift (Ok a) ≫= k = k a.
Proof. unfold mbind, io_bind, lift. simpl. by destruct (k a). Qed.

Lemma io_bind_ret {A B : Type} (a : A) (k : A -> io B) : mret a ≫= k = k a.
Proof. apply io_bind_lift_ok. Qed.

Lemma io_bind_lift_raise {A B : Type} (e : exn) (k : A -> io B) :
  lift (Raise e) ≫= k = IO [] (Raise e).
Proof. reflexivity. Qed.

Lemma Element_ok (el : string) : is_element el = true -> Element el = Ok el.
Proof. unfold Element. by intros ->. Qed.

Lemma Element_raise (el : string) (e : exn) :
  Element el = Raise e -> is_element el = false.
Proof. unfold Element. by destruct (is_element el). Qed.

(** One turn of the loop. *)
Lemma loop_cons (ox : gmap string Z) (d : list (string * Q)) (property_name el : string)
    (rest : list string) (eldata : list (option pyfloat)) (tups : list eldata_tup) :
  loop ox d property_name (el :: rest) eldata tups =
  match Element el with
  | Raise e => IO [] (Raise e)
  | Ok _ =>
      match getattr el property_name with
      | None =>
          IO [property_name +:+ " attribute missing"] (Raise (AttributeError property_name))
      | Some p =>
          match value_and_unit ox el property_name p with
          | Raise e => IO [] (Raise e)
          | Ok (v, u) =>
              match dict_get d el with
              | Raise e => IO [] (Raise e)
              | Ok a =>
                  loop ox d property_name rest (eldata ++ per_atom v a)
                    (tups ++ [{| element := el; propname := property_name;
                                 propvalue := v; propunit := u; amt := a |}])
              end
          end
      end
  end.
Proof.
  cbn [loop]. unfold Element at 1 2.
  destruct (is_element el); [|done].
  rewrite io_bind_lift_ok. unfold read_attr.
  destruct (getattr el property_name) as [p|]; [|done].
  rewrite io_bind_ret.
  destruct (value_and_unit ox el property_name p) as [[v u]|e]; [|done].
  rewrite io_bind_lift_ok.
  destruct (dict_get d el) as [a|e]; [|done].
  by rewrite io_bind_lift_ok.
Qed.

Lemma resolves_value (ox : gmap string Z) (property_name el : string) (p : attr)
    (v : option pyfloat) (u : option string) :
  getattr el property_name = Some p ->
  value_and_unit ox el property_name p = Ok (v, u) ->
  resolved ox property_name el = v.
Proof. unfold resolved. by intros -> ->. Qed.

(** The loop returns exactly when every element resolves; it then returns
    the expansion and has printed nothing. *)
Lemma loop_spec (ox : gmap string Z) (d : list (string * Q)) (property_name : string)
    (symbols : list string) :
  symbols ⊆ d.*1 ->
  forall (eldata : list (option pyfloat)) (tups : list eldata_tup),
    (Forall (resolves ox property_name) symbols ->
     loop ox d property_name symbols eldata tups
     = IO [] (Ok (eldata ++ flat_map (fun el => per_atom (resolved ox property_name el)
                                                  (amount d el)) symbols))) /\
    (forall l, outcome (loop ox d property_name symbols eldata tups) = Ok l ->
               Forall (resolves ox property_name) symbols).
Proof.
  induction symbols as [|el symbols IH]; intros Hsub eldata tups.
  - split; [|done]. intros _. simpl. by rewrite app_nil_r.
  - assert (Hel : el ∈ d.*1) by (apply Hsub; left).
    assert (Hrest : symbols ⊆ d.*1) by (intros x Hx; apply Hsub; by right).
    rewrite loop_cons, (dict_get_key _ _ Hel). split.
    + intros [(Hel_ok & p & u & Hp & Hv) Hall]%Forall_cons.
      rewrite (Element_ok _ Hel_ok), Hp, Hv.
      destruct (IH Hrest (eldata ++ per_atom (resolved ox property_name el) (amount d el))%list
                  (tups ++ [{| element := el; propname := property_name;
                               propvalue := resolved ox property_name el;
                               propunit := u; amt := amount d el |}])%list)
        as [Hgo _].
      rewrite (Hgo Hall). simpl. by rewrite <- app_assoc.
    + intros l. destruct (Element el) as [el'|e] eqn:HE; [|done].
      assert (Hel_ok : is_element el = true).
      { unfold Element in HE. by destruct (is_element el). }
      destruct (getattr el property_name) as [p|] eqn:Hp; [|done].
      destruct (value_and_unit ox el property_name p) as [[v u]|e] eqn:Hv; [|done].
      intros Hl. constructor.
      * split; [done|]. exists p, u. split; [done|].
        by rewrite (resolves_value _ _ _ _ _ _ Hp Hv).
      * exact (proj2 (IH Hrest _ _) _ Hl).
Qed.

End LoopFacts.

(** * The order and the expansion of [get_property] *)

Section OrderedExpansion.
Context `{Pymatgen}.

Lemma sorted_keys_subseteq (d : list (string * Q)) : sorted d.*1 ⊆ d.*1.
Proof. intros x Hx. by rewrite sorted_perm in Hx. Qed.

Lemma magpie_get_property_inv (self : MagpieData.t) (comp : comp_arg)
    (property_name : string) (l : list table_value) :
  MagpieData.get_property self comp property_name = Ok l ->
  exists c : Composition,
    MagpieData.Composition_ctor comp = Ok c /\
    property_name ∈ MagpieData.available_props self /\
    MagpieData.expand self property_name (get_el_amt_dict c)
      (sorted (get_el_amt_dict c).*1) = Ok l.
Proof.
  unfold MagpieData.get_property.
  destruct (MagpieData.Composition_ctor comp) as [c|e]; [|done].
  cbn [mbind res_bind rbind]. case_bool_decide; [|done]. eauto.
Qed.

Lemma pymatgen_get_property_unfold (comp : comp_arg) (property_name : string) :
  PymatgenData.get_property comp property_name =
  match PymatgenData.resolve comp with
  | Ok (c, ox) =>
      PymatgenData.loop ox (get_el_amt_dict c) property_name
        (sorted (get_el_amt_dict c).*1) [] []
  | Raise e => IO [] (Raise e)
  end.
Proof.
  unfold PymatgenData.get_property.
  destruct (PymatgenData.resolve comp) as [[c ox]|e]; [|done].
  by rewrite io_bind_lift_ok.
Qed.

Lemma Fe2O3_dict (d : list (string * Q)) :
  (X "Fe" < X "O")%Q ->
  d ≡ₚ [("Fe", 2%Q); ("O", 3%Q)] ->
  sorted d.*1 = ["Fe"; "O"] /\ d.*1 ≡ₚ ["Fe"; "O"] /\
  amount d "Fe" = 2%Q /\ amount d "O" = 3%Q.
Proof.
  intros HX Hd. split; [|split].
  - apply sorted_pair; [done|]. by rewrite Hd.
  - by rewrite Hd.
  - symmetry in Hd. by apply Permutation_length_2_inv in Hd as [-> | ->].
Qed.

(** C1: whenever [get_property] returns, on the table-backed source and on
    the live-attribute source, the elements of the composition are listed
    in ascending order of electronegativity and each contributes as many
    consecutive copies of its value as the floor of its amount (none for an
    amount below one), which is what [int(amount)] turns of the loop give;
    for ["Fe2O3"], with iron less electronegative than oxygen, the result
    is two copies of the value of Fe followed by three copies of the value
    of O. *)
Theorem get_property_ordered_expansion :
  (forall (self : MagpieData.t) (comp : comp_arg) (property_name : string)
          (l : list table_value),
      MagpieData.get_property self comp property_name = Ok l ->
      exists (c : Composition) (symbols : list string),
        MagpieData.Composition_ctor comp = Ok c /\
        symbols ≡ₚ (get_el_amt_dict c).*1 /\ ascending symbols /\
        Forall (fun el => (1 <= amount (get_el_amt_dict c) el)%Q ->
                  MagpieData.table_get self property_name el
                  = Ok (cell self property_name el)) symbols /\
        l = flat_map (fun el => replicate
                                  (Z.to_nat (Qfloor (amount (get_el_amt_dict c) el)))
                                  (cell self property_name el)) symbols) /\
  (forall (comp : comp_arg) (property_name : string) (l : list (option pyfloat)),
      outcome (PymatgenData.get_property comp property_name) = Ok l ->
      exists (c : Composition) (ox : gmap string Z) (symbols : list string),
        PymatgenData.resolve comp = Ok (c, ox) /\
        symbols ≡ₚ (get_el_amt_dict c).*1 /\ ascending symbols /\
        Forall (resolves ox property_name) symbols /\
        l = flat_map (fun el => replicate
                                  (Z.to_nat (Qfloor (amount (get_el_amt_dict c) el)))
                                  (resolved ox property_name el)) symbols) /\
  (forall (self : MagpieData.t) (property_name : string) (c : Composition)
          (vFe vO : table_value),
      Composition_of_str "Fe2O3" = Ok c ->
      get_el_amt_dict c ≡ₚ [("Fe", 2%Q); ("O", 3%Q)] ->
      (X "Fe" < X "O")%Q ->
      property_name ∈ MagpieData.available_props self ->
      MagpieData.table_get self property_name "Fe" = Ok vFe ->
      MagpieData.table_get self property_name "O" = Ok vO ->
      MagpieData.get_property self (CompStr "Fe2O3") property_name
      = Ok [vFe; vFe; vO; vO; vO]) /\
  (forall (property_name : string) (c : Composition) (pFe pO : attr)
          (vFe vO : option pyfloat) (uFe uO : option string),
      Composition_of_str "Fe2O3" = Ok c ->
      get_el_amt_dict c ≡ₚ [("Fe", 2%Q); ("O", 3%Q)] ->
      (X "Fe" < X "O")%Q ->
      is_element "Fe" = true -> is_element "O" = true ->
      getattr "Fe" property_name = Some pFe ->
      getattr "O" property_name = Some pO ->
      PymatgenData.value_and_unit ∅ "Fe" property_name pFe = Ok (vFe, uFe) ->
      PymatgenData.value_and_unit ∅ "O" property_name pO = Ok (vO, uO) ->
      PymatgenData.get_property (CompStr "Fe2O3") property_name
      = IO [] (Ok [vFe; vFe; vO; vO; vO])).
Proof.
  split_and!.
  - intros self comp property_name l Hl.
    apply magpie_get_property_inv in Hl as (c & Hc & _ & Hl).
    apply expand_spec in Hl as [Hst ->]; [|apply sorted_keys_subseteq].
    exists c, (sorted (get_el_amt_dict c).*1).
    split_and!; [done|apply sorted_perm|apply sorted_ascending
                |by apply stored_at_least_one|apply flat_map_per_atom_floor].
  - intros comp property_name l Hl.
    rewrite pymatgen_get_property_unfold in Hl.
    destruct (PymatgenData.resolve comp) as [[c ox]|e]; [|done].
    pose proof (loop_spec ox (get_el_amt_dict c) property_name _
                  (sorted_keys_subseteq _) [] []) as [Hgo Hinv].
    specialize (Hinv l Hl). rewrite (Hgo Hinv) in Hl. simpl in Hl.
    injection Hl as <-.
    exists c, ox, (sorted (get_el_amt_dict c).*1).
    split_and!; [done|apply sorted_perm|apply sorted_ascending|done
                |apply flat_map_per_atom_floor].
  - intros self property_name c vFe vO Hc Hd HX Hin HFe HO.
    destruct (Fe2O3_dict _ HX Hd) as (Hs & Hk & HaFe & HaO).
    unfold MagpieData.get_property, MagpieData.Composition_ctor.
    rewrite Hc. cbn [mbind res_bind rbind].
    rewrite bool_decide_eq_true_2 by done. cbv zeta. rewrite Hs.
    apply expand_spec.
    + intros x Hx. by rewrite Hk.
    + split.
      * repeat constructor; intros _; [rewrite HFe | rewrite HO]; f_equal; symmetry;
          by apply table_get_cell.
      * simpl. rewrite HaFe, HaO.
        rewrite (table_get_cell _ _ _ _ HFe), (table_get_cell _ _ _ _ HO). done.
  - intros property_name c pFe pO vFe vO uFe uO Hc Hd HX HeFe HeO HpFe HpO HvFe HvO.
    destruct (Fe2O3_dict _ HX Hd) as (Hs & Hk & HaFe & HaO).
    rewrite pymatgen_get_property_unfold. unfold PymatgenData.resolve.
    change (OxidationStateParser.get_composition_oxidation_state "Fe2O3")
      with (c ← Composition_of_str "Fe2O3"; Ok (c, ∅ : gmap string Z)).
    rewrite Hc. cbn [mbind res_bind rbind]. rewrite Hs.
    assert (Hsub : ["Fe"; "O"] ⊆ (get_el_amt_dict c).*1)
      by (intros x Hx; by rewrite Hk).
    destruct (loop_spec ∅ (get_el_amt_dict c) property_name _ Hsub [] []) as [Hgo _].
    rewrite Hgo.
    + simpl. rewrite HaFe, HaO.
      rewrite (resolves_value _ _ _ _ _ _ HpFe HvFe), (resolves_value _ _ _ _ _ _ HpO HvO).
      done.
    + repeat constructor; try done.
      * exists pFe, uFe. split; [done|]. by rewrite (resolves_value _ _ _ _ _ _ HpFe HvFe).
      * exists pO, uO. split; [done|]. by rewrite (resolves_value _ _ _ _ _ _ HpO HvO).
Qed.

End OrderedExpansion.

Lemma get_property_ordered_expansion_witness :
  MagpieData.get_property (H := Sample.world) Sample.magpie (CompStr "Fe2O3")
    "Electronegativity"
  = Ok [VFloat (FNum (183 # 100)); VFloat (FNum (183 # 100));
        VFloat (FNum (344 # 100)); VFloat (FNum (344 # 100)); VFloat (FNum (344 # 100))] /\
  PymatgenData.get_property (H := Sample.world) (CompStr "Fe2O3") "X"
  = IO [] (Ok [Some (FNum (183 # 100)); Some (FNum (183 # 100));
               Some (FNum (344 # 100)); Some (FNum (344 # 100)); Some (FNum (344 # 100))]) /\
  (exists (c : Composition) (symbols : list string),
      MagpieData.Composition_ctor (H := Sample.world) (CompObj Sample.halves) = Ok c /\
      symbols ≡ₚ (get_el_amt_dict c).*1 /\ ascending (H := Sample.world) symbols /\
      Forall (fun el => (1 <= amount (get_el_amt_dict c) el)%Q ->
                MagpieData.table_get Sample.magpie "Electronegativity" el
                = Ok (cell Sample.magpie "Electronegativity" el)) symbols /\
      [VFloat (FNum (183 # 100)); VFloat (FNum (183 # 100)); VFloat (FNum (183 # 100))]
      = flat_map (fun el => replicate
                              (Z.to_nat (Qfloor (amount (get_el_amt_dict c) el)))
                              (cell Sample.magpie "Electronegativity" el)) symbols) /\
  (exists (c : Composition) (ox : gmap string Z) (symbols : list string),
      PymatgenData.resolve (H := Sample.world) (CompObj Sample.halves) = Ok (c, ox) /\
      symbols ≡ₚ (get_el_amt_dict c).*1 /\ ascending (H := Sample.world) symbols /\
      Forall (resolves (H := Sample.world) ox "X") symbols /\
      [Some (FNum (183 # 100)); Some (FNum (183 # 100)); Some (FNum (183 # 100))]
      = flat_map (fun el => replicate
                              (Z.to_nat (Qfloor (amount (get_el_amt_dict c) el)))
                              (resolved (H := Sample.world) ox "X" el)) symbols).
Proof.
  destruct (get_property_ordered_expansion (H := Sample.world)) as (HGM & HGP & HM & HP).
  split_and!.
  - eapply HM; [reflexivity | vm_compute; reflexivity | reflexivity
               | apply (bool_decide_unpack _); vm_compute; exact I | reflexivity | reflexivity].
  - eapply HP; [reflexivity | vm_compute; reflexivity | reflexivity
               | reflexivity | reflexivity | reflexivity | reflexivity
               | reflexivity | reflexivity].
  - apply HGM. reflexivity.
  - apply HGP. reflexivity.
Defined.

(** * Unknown properties of the table-backed source *)

Section UnknownProperty.
Context `{Pymatgen}.

Lemma str_app_cons (c : ascii) (s t : string) : String c s +:+ t = String c (s +:+ t).
Proof. reflexivity. Qed.

Lemma str_app_assoc (a b c : string) : (a +:+ b) +:+ c = a +:+ (b +:+ c).
Proof. induction a as [|x a IH]; [done|]. by rewrite !str_app_cons, IH. Qed.

Lemma str_app_nil_r (a : string) : a +:+ EmptyString = a.
Proof. induction a as [|x a IH]; [done|]. by rewrite str_app_cons, IH. Qed.

Lemma occurs_in_refl (x : string) : occurs_in x x.
Proof. exists EmptyString, EmptyString. by rewrite str_app_nil_r. Qed.

Lemma occurs_in_app_l (x s t : string) : occurs_in x s -> occurs_in x (s +:+ t).
Proof.
  intros (pre & post & ->). exists pre, (post +:+ t).
  by rewrite !str_app_assoc.
Qed.

Lemma occurs_in_app_r (x s t : string) : occurs_in x t -> occurs_in x (s +:+ t).
Proof.
  intros (pre & post & ->). exists (s +:+ pre), post.
  by rewrite !str_app_assoc.
Qed.

Lemma occurs_in_join (sep x : string) (l : list string) :
  x ∈ l -> occurs_in x (Py.join sep l).
Proof.
  induction l as [|y l IH]; [by intros ?%elem_of_nil|].
  intros Hin. simpl. destruct l as [|z l].
  - apply list_elem_of_singleton in Hin as ->. apply occurs_in_refl.
  - apply elem_of_cons in Hin as [->|Hin].
    + apply occurs_in_app_l, occurs_in_refl.
    + by apply occurs_in_app_r, occurs_in_app_r, IH.
Qed.

(** The message of the error names every available property. *)
Lemma unknown_property_message_names (available : list string) (name : string) :
  name ∈ available ->
  occurs_in (Py.repr name) (MagpieData.unknown_property_message available).
Proof.
  intros Hin. unfold MagpieData.unknown_property_message, Py.repr_list.
  apply occurs_in_app_r, occurs_in_app_r, occurs_in_app_l, occurs_in_join.
  by apply list_elem_of_fmap_2.
Qed.

(** The comprehension fails with a [KeyError] only. *)
Lemma expand_raise (self : MagpieData.t) (property_name : string)
    (el_amt : list (string * Q)) (symbols : list string) (e : exn) :
  MagpieData.expand self property_name el_amt symbols = Raise e ->
  exists k : pykey, e = KeyError k.
Proof.
  induction symbols as [|el symbols IH]; simpl; [done|].
  destruct (dict_get el_amt el) as [a|e'] eqn:Ha; cbn [mbind res_bind rbind].
  - destruct (Z.to_nat (Py.int_of_float a)); cbn [mbind res_bind rbind].
    + destruct (MagpieData.expand self property_name el_amt symbols); cbn [rbind];
        [done|]. intros [= <-]. by apply IH.
    + unfold MagpieData.table_get.
      destruct (default ∅ (MagpieData.all_elemental_props self !! property_name) !! el);
        cbn [rbind]; [|intros [= <-]; eauto].
      destruct (MagpieData.expand self property_name el_amt symbols); cbn [rbind];
        [done|]. intros [= <-]. by apply IH.
  - intros [= <-]. clear IH. induction el_amt as [|[k a] d IHd]; simpl in Ha.
    + injection Ha as <-. eauto.
    + destruct (String.eqb k el); [done|]. by apply IHd.
Qed.

(** C6: on a composition that is built, a property name outside the
    available properties raises [ValueError] with a message that lists
    every available property, and a property name among them does not raise
    that error. *)
Theorem unknown_property_raises (self : MagpieData.t) (comp : comp_arg)
    (property_name : string) (c : Composition) :
  MagpieData.Composition_ctor comp = Ok c ->
  (property_name ∉ MagpieData.available_props self ->
   MagpieData.get_property self comp property_name
   = Raise (ValueError (MagpieData.unknown_property_message
                          (MagpieData.available_props self))) /\
   forall name : string,
     name ∈ MagpieData.available_props self ->
     occurs_in (Py.repr name)
       (MagpieData.unknown_property_message (MagpieData.available_props self))) /\
  (property_name ∈ MagpieData.available_props self ->
   forall msg : string,
     MagpieData.get_property self comp property_name <> Raise (ValueError msg)).
Proof.
  intros Hc. unfold MagpieData.get_property. rewrite Hc. cbn [mbind res_bind rbind].
  split.
  - intros Hnot. rewrite bool_decide_eq_false_2 by done.
    split; [done|]. apply unknown_property_message_names.
  - intros Hin msg. rewrite bool_decide_eq_true_2 by done. cbv zeta.
    intros Hr. by apply expand_raise in Hr as [k [=]].
Qed.

End UnknownProperty.

Lemma unknown_property_raises_witness :
  MagpieData.get_property (H := Sample.world) Sample.magpie (CompStr "Fe2O3") "Density"
  = Raise (ValueError
      "This descriptor is not available from the Magpie repository. Choose from ['Number', 'Electronegativity', 'OxidationStates']") /\
  occurs_in "'OxidationStates'"
    (MagpieData.unknown_property_message (MagpieData.available_props Sample.magpie)).
Proof.
  destruct (unknown_property_raises (H := Sample.world) Sample.magpie (CompStr "Fe2O3")
              "Density" [Sample.plain "Fe" 2; Sample.plain "O" 3] eq_refl) as [Hunknown _].
  destruct Hunknown as [Hraise Hnames]; [apply (bool_decide_unpack _); vm_compute; exact I|].
  split; [exact Hraise|].
  apply (Hnames "OxidationStates"). apply (bool_decide_unpack _). vm_compute. exact I.
Defined.

(** * Construction of the table *)

Section TableFacts.
Context `{Pymatgen}.
Import MagpieData.


Lemma row_store_eq (tbl : gmap string (gmap string table_value))
    (name sym : string) (v : table_value) :
  row (store tbl name sym v) name = <[sym := v]> (row tbl name).
Proof. unfold row, store. by rewrite lookup_insert_eq. Qed.

Lemma store_other (tbl : gmap string (gmap string table_value))
    (name name' sym : string) (v : table_value) :
  name' <> name -> store tbl name sym v !! name' = tbl !! name'.
Proof. intros Hne. unfold store. by rewrite lookup_insert_ne. Qed.


(** On a file without a line for some atomic number the loop raises
    [IndexError]. *)
Lemma parse_rows_short (name : string) (lines : list string) (zs : list nat) :
  (forall z, z ∈ zs -> (1 <= z)%nat) ->
  (exists z, z ∈ zs /\ (length lines < z)%nat) ->
  forall tbl : gmap string (gmap string table_value),
    parse_rows name lines zs tbl = Raise IndexError.
Proof.
  induction zs as [|z zs IH]; intros Hpos (z0 & Hz0 & Hlen) tbl.
  - by apply elem_of_nil in Hz0.
  - simpl. destruct (lines !! (z - 1)%nat) as [line|] eqn:Hline; [|done].
    apply lookup_lt_Some in Hline.
    apply IH; [intros z' Hz'; apply Hpos; by right|].
    exists z0. split; [|done].
    apply elem_of_cons in Hz0 as [->|?]; [|done].
    assert (1 <= z)%nat by (apply Hpos; left). lia.
Qed.



(** On a file with a line for each atomic number the loop ends. *)
Lemma parse_rows_returns (name : string) (lines : list string) (zs : list nat) :
  (forall z, z ∈ zs -> (1 <= z <= length lines)%nat) ->
  forall tbl : gmap string (gmap string table_value),
  exists tbl' : gmap string (gmap string table_value),
    parse_rows name lines zs tbl = Ok tbl'.
Proof.
  induction zs as [|z zs IH]; intros Hrange tbl; simpl; [by eexists|].
  assert (Hz : (1 <= z <= length lines)%nat) by (apply Hrange; left).
  destruct (lines !! (z - 1)%nat) as [line|] eqn:Hline;
    [|apply lookup_ge_None in Hline; lia].
  apply IH. intros z' Hz'. apply Hrange. by right.
Qed.

Lemma parse_files_short (dir : directory) (props : list string)
    (name : string) (lines : list string) :
  (forall n, n ∈ props -> exists ls, readlines dir (n +:+ ".table") = Ok ls) ->
  name ∈ props ->
  readlines dir (name +:+ ".table") = Ok lines ->
  (length lines < pt_data_len)%nat ->
  forall tbl0 : gmap string (gmap string table_value),
    parse_files dir props tbl0 = Raise IndexError.
Proof.
  intros Hfiles Hin Hread Hlen.
  induction props as [|n props IH]; intros tbl0; [by apply elem_of_nil in Hin|].
  destruct (Hfiles n) as (ls & Hls); [left|].
  simpl. rewrite Hls. cbn [mbind res_bind rbind].
  destruct (decide (length ls < pt_data_len)%nat) as [Hshort|Hlong].
  - rewrite parse_rows_short; [done| |].
    + intros z Hz%elem_of_seq. lia.
    + exists pt_data_len. split; [apply elem_of_seq; lia | done].
  - destruct (parse_rows_returns n ls (seq 1 pt_data_len)) with (tbl := tbl0)
      as (tbl1 & Hrun).
    { intros z Hz%elem_of_seq. lia. }
    rewrite Hrun. cbn [rbind]. apply IH.
    + intros n' Hn'. apply Hfiles. by right.
    + apply elem_of_cons in Hin as [->|?]; [|done].
      rewrite Hread in Hls. injection Hls as <-. lia.
Qed.

(** C10: construction needs every property file to have a line for each
    atomic number: when the files can be read and one of them has fewer
    lines than there are elements, construction raises [IndexError] and
    there is no table. *)
Theorem parse_short_file_raises (dir : directory) (available : list string)
    (name : string) (lines : list string) :
  (forall n, n ∈ available -> exists ls, readlines dir (n +:+ ".table") = Ok ls) ->
  name ∈ available ->
  readlines dir (name +:+ ".table") = Ok lines ->
  (length lines < pt_data_len)%nat ->
  _parse dir available = Raise IndexError.
Proof.
  intros Hfiles Hin Hread Hlen. unfold _parse.
  by apply (parse_files_short dir available name lines).
Qed.

End TableFacts.



Lemma parse_short_file_raises_witness :
  MagpieData._parse (H := Sample.world) Sample.short_dir ["Number"; "Electronegativity"]
  = Raise IndexError.
Proof.
  apply (parse_short_file_raises (H := Sample.world) Sample.short_dir
           ["Number"; "Electronegativity"] "Electronegativity"
           (take 3 Sample.electronegativity_table)).
  - intros n Hn.
    repeat (apply elem_of_cons in Hn as [->|Hn]); [eexists; reflexivity ..|].
    by apply elem_of_nil in Hn.
  - apply (bool_decide_unpack _). vm_compute. exact I.
  - reflexivity.
  - simpl. lia.
Defined.

(** * Errors and [None] values of the live-attribute source *)

Section LiveFacts.
Context `{Pymatgen}.
Import PymatgenData.

Lemma sorted_nil_inv (l : list string) : sorted l = [] -> l = [].
Proof.
  intros Hs. apply Permutation_nil_r. by rewrite <- Hs, sorted_perm.
Qed.

Lemma elem_of_sorted (x : string) (l : list string) : x ∈ sorted l <-> x ∈ l.
Proof. by rewrite sorted_perm. Qed.

(** C8: when the attribute is not one the element abstraction has, and the
    composition of the call has an element, the call prints a line that
    names the attribute and then raises [AttributeError]. *)
Theorem missing_attribute_prints_then_raises (comp : comp_arg) (property_name : string)
    (c : Composition) (ox : gmap string Z) :
  resolve comp = Ok (c, ox) ->
  get_el_amt_dict c <> [] ->
  (forall el, el ∈ (get_el_amt_dict c).*1 -> is_element el = true) ->
  (forall el, getattr el property_name = None) ->
  get_property comp property_name
  = IO [property_name +:+ " attribute missing"] (Raise (AttributeError property_name)).
Proof.
  intros Hres Hne Hels Hattr.
  rewrite pymatgen_get_property_unfold, Hres.
  destruct (sorted (get_el_amt_dict c).*1) as [|el rest] eqn:Hs.
  - apply sorted_nil_inv, fmap_nil_inv in Hs. done.
  - rewrite loop_cons, Element_ok, Hattr; [done|].
    apply Hels. rewrite <- elem_of_sorted, Hs. left.
Qed.

Lemma value_and_unit_None (ox : gmap string Z) (el property_name : string) :
  value_and_unit ox el property_name PNone = Ok (None, None).
Proof. reflexivity. Qed.

(** C9: an element whose attribute exists and is [None] raises nothing and
    contributes [None] for each of its atoms to the result, the other
    elements resolving to their values. *)
Theorem none_attribute_gives_none (comp : comp_arg) (property_name el : string)
    (c : Composition) (ox : gmap string Z) :
  resolve comp = Ok (c, ox) ->
  el ∈ (get_el_amt_dict c).*1 ->
  is_element el = true ->
  getattr el property_name = Some PNone ->
  (forall el', el' ∈ (get_el_amt_dict c).*1 -> el' <> el -> resolves ox property_name el') ->
  exists before after : list string,
    sorted (get_el_amt_dict c).*1 = before ++ el :: after /\
    get_property comp property_name
    = IO [] (Ok (flat_map (fun e => per_atom (resolved ox property_name e)
                                      (amount (get_el_amt_dict c) e)) before
                 ++ replicate (atoms (get_el_amt_dict c) el) None
                 ++ flat_map (fun e => per_atom (resolved ox property_name e)
                                         (amount (get_el_amt_dict c) e)) after)).
Proof.
  intros Hres Hel Helem Hattr Hothers.
  assert (Hnone : resolved ox property_name el = None).
  { unfold resolved. by rewrite Hattr. }
  assert (Hall : Forall (resolves ox property_name) (sorted (get_el_amt_dict c).*1)).
  { apply Forall_forall. intros e He. rewrite elem_of_sorted in He.
    destruct (decide (e = el)) as [->|Hne]; [|by apply Hothers].
    split; [done|]. exists PNone, None. by rewrite Hnone. }
  rewrite <- elem_of_sorted in Hel.
  apply list_elem_of_split in Hel as (before & after & Hsplit).
  exists before, after. split; [done|].
  rewrite pymatgen_get_property_unfold, Hres.
  destruct (loop_spec ox (get_el_amt_dict c) property_name _
              (sorted_keys_subseteq _) [] []) as [Hgo _].
  rewrite (Hgo Hall), Hsplit, flat_map_app. simpl.
  by rewrite per_atom_amount, Hnone.
Qed.

Lemma value_and_unit_ionic (ox : gmap string Z) (el : string) (radii : gmap Z pyfloat) :
  value_and_unit ox el "ionic_radii" (PDict radii) =
  if bool_decide (ox <> ∅) then
    match ox !! el with
    | None => Raise (KeyError (KStr el))
    | Some o =>
        match radii !! o with
        | Some r => Ok (Some r, Some "ang")
        | None => Raise (KeyError (KInt o))
        end
    end
  else Raise (ValueError (missing_oxidation_state_message "ionic_radii")).
Proof.
  unfold value_and_unit.
  change (bool_decide ("ionic_radii" ∈ ["ionic_radii"])) with true.
  change (bool_decide ("ionic_radii" ∈ unitless)) with true.
  case_bool_decide; [|done]. unfold ionic_radius.
  destruct (ox !! el) as [o|]; [|done]. by destruct (radii !! o).
Qed.

(** With oxidation states, the loop on the ionic radii stops at the first
    element that has no state in the map, or no radius for its state. *)
Lemma loop_ionic_key_error (ox : gmap string Z) (d : list (string * Q))
    (symbols : list string) (el0 : string) (radii0 : gmap Z pyfloat) :
  symbols ⊆ d.*1 ->
  ox <> ∅ ->
  (forall el, el ∈ symbols ->
     is_element el = true /\
     exists radii, getattr el "ionic_radii" = Some (PDict radii)) ->
  el0 ∈ symbols ->
  getattr el0 "ionic_radii" = Some (PDict radii0) ->
  ox !! el0 = None \/ (exists o, ox !! el0 = Some o /\ radii0 !! o = None) ->
  forall (eldata : list (option pyfloat)) (tups : list eldata_tup),
  exists (before after : list string) (el : string) (radii : gmap Z pyfloat),
    symbols = before ++ el :: after /\
    Forall (fun e => exists r, resolved ox "ionic_radii" e = Some r) before /\
    getattr el "ionic_radii" = Some (PDict radii) /\
    ((ox !! el = None /\
      loop ox d "ionic_radii" symbols eldata tups = IO [] (Raise (KeyError (KStr el)))) \/
     (exists o, ox !! el = Some o /\ radii !! o = None /\
        loop ox d "ionic_radii" symbols eldata tups = IO [] (Raise (KeyError (KInt o))))).
Proof.
  intros Hsub Hne. induction symbols as [|el symbols IH]; intros Hels Hel0 Hattr0 Hbad eldata tups.
  - by apply elem_of_nil in Hel0.
  - assert (Hel : el ∈ d.*1) by (apply Hsub; left).
    assert (Hrest : symbols ⊆ d.*1) by (intros x Hx; apply Hsub; by right).
    destruct (Hels el) as (Helem & radii & Hattr); [left|].
    rewrite loop_cons, (Element_ok _ Helem), Hattr, value_and_unit_ionic,
      (bool_decide_eq_true_2 _ Hne), (dict_get_key _ _ Hel).
    destruct (ox !! el) as [o|] eqn:Ho.
    + destruct (radii !! o) as [r|] eqn:Hr.
      * assert (Hin : el0 ∈ symbols).
        { apply elem_of_cons in Hel0 as [->|Hin]; [|done].
          rewrite Hattr in Hattr0. injection Hattr0 as <-.
          destruct Hbad as [Hbad|(o' & Ho' & Hr')]; [by rewrite Ho in Hbad|].
          rewrite Ho in Ho'. injection Ho' as <-. by rewrite Hr in Hr'. }
        destruct (IH Hrest (fun e He => Hels e (list_elem_of_further _ _ _ He)) Hin Hattr0 Hbad
                    (eldata ++ per_atom (Some r) (amount d el))
                    (tups ++ [{| element := el; propname := "ionic_radii";
                                 propvalue := Some r; propunit := Some "ang";
                                 amt := amount d el |}]))
          as (before & after & e & radii' & -> & Hbefore & Hattr' & Hcase).
        exists (el :: before), after, e, radii'. split_and!; try done.
        constructor; [|done]. exists r. unfold resolved.
        by rewrite Hattr, value_and_unit_ionic, (bool_decide_eq_true_2 _ Hne), Ho, Hr.
      * exists [], symbols, el, radii. split_and!; try done.
        right. exists o. by split_and!.
    + exists [], symbols, el, radii. split_and!; try done. by left.
Qed.
(** C5, as the code has it: for the ionic-radius property the
    oxidation-state map of the call must not be empty. With an empty map a
    call on a composition that has an element raises the [ValueError] of the
    missing oxidation state. With a map that is not empty the value of an
    element is its ionic radius keyed by the oxidation state of that
    element, and an element without a state in the map, or without a radius
    for its state, raises [KeyError]: the call fails with the [KeyError] of
    the first such element in the order of electronegativity, named by the
    element when it has no state and by the state when there is no radius
    for it. The symbols of the composition are elements whose ionic radii
    are a table keyed by oxidation state. *)
Theorem ionic_radii_oxidation_states :
  (forall (ox : gmap string Z) (el : string) (radii : gmap Z pyfloat),
      (ox = ∅ ->
       value_and_unit ox el "ionic_radii" (PDict radii)
       = Raise (ValueError (missing_oxidation_state_message "ionic_radii"))) /\
      (forall (o : Z) (r : pyfloat),
          ox !! el = Some o -> radii !! o = Some r ->
          value_and_unit ox el "ionic_radii" (PDict radii) = Ok (Some r, Some "ang")) /\
      (ox <> ∅ -> ox !! el = None ->
       value_and_unit ox el "ionic_radii" (PDict radii) = Raise (KeyError (KStr el))) /\
      (forall o : Z,
          ox !! el = Some o -> radii !! o = None ->
          value_and_unit ox el "ionic_radii" (PDict radii) = Raise (KeyError (KInt o)))) /\
  (forall (comp : comp_arg) (c : Composition),
      resolve comp = Ok (c, ∅) ->
      get_el_amt_dict c <> [] ->
      (forall el, el ∈ (get_el_amt_dict c).*1 ->
         is_element el = true /\
         exists radii, getattr el "ionic_radii" = Some (PDict radii)) ->
      get_property comp "ionic_radii"
      = IO [] (Raise (ValueError (missing_oxidation_state_message "ionic_radii")))) /\
  (forall (comp : comp_arg) (c : Composition) (ox : gmap string Z),
      resolve comp = Ok (c, ox) ->
      (forall el, el ∈ (get_el_amt_dict c).*1 ->
         is_element el = true /\
         exists radii o r, getattr el "ionic_radii" = Some (PDict radii) /\
                           ox !! el = Some o /\ radii !! o = Some r) ->
      get_property comp "ionic_radii"
      = IO [] (Ok (flat_map (fun el => per_atom (resolved ox "ionic_radii" el)
                                         (amount (get_el_amt_dict c) el))
                     (sorted (get_el_amt_dict c).*1))) /\
      forall el, el ∈ (get_el_amt_dict c).*1 ->
        exists radii o, getattr el "ionic_radii" = Some (PDict radii) /\
                        ox !! el = Some o /\
                        resolved ox "ionic_radii" el = radii !! o) /\
  (forall (comp : comp_arg) (c : Composition) (ox : gmap string Z) (el0 : string)
          (radii0 : gmap Z pyfloat),
      resolve comp = Ok (c, ox) ->
      ox <> ∅ ->
      (forall el, el ∈ (get_el_amt_dict c).*1 ->
         is_element el = true /\
         exists radii, getattr el "ionic_radii" = Some (PDict radii)) ->
      el0 ∈ (get_el_amt_dict c).*1 ->
      getattr el0 "ionic_radii" = Some (PDict radii0) ->
      ox !! el0 = None \/ (exists o, ox !! el0 = Some o /\ radii0 !! o = None) ->
      exists (before after : list string) (el : string) (radii : gmap Z pyfloat),
        sorted (get_el_amt_dict c).*1 = before ++ el :: after /\
        Forall (fun e => exists r, resolved ox "ionic_radii" e = Some r) before /\
        getattr el "ionic_radii" = Some (PDict radii) /\
        ((ox !! el = None /\
          get_property comp "ionic_radii" = IO [] (Raise (KeyError (KStr el)))) \/
         (exists o, ox !! el = Some o /\ radii !! o = None /\
            get_property comp "ionic_radii" = IO [] (Raise (KeyError (KInt o)))))).
Proof.
  split_and!.
  - intros ox el radii. rewrite value_and_unit_ionic. split_and!.
    + intros ->. rewrite bool_decide_eq_false_2; [done|]. intros Hne. by apply Hne.
    + intros o r Ho Hr. rewrite bool_decide_eq_true_2, Ho, Hr; [done|].
      intros ->. by rewrite lookup_empty in Ho.
    + intros Hne Ho. by rewrite bool_decide_eq_true_2, Ho.
    + intros o Ho Hr. rewrite bool_decide_eq_true_2, Ho, Hr; [done|].
      intros ->. by rewrite lookup_empty in Ho.
  - intros comp c Hres Hne Hels.
    rewrite pymatgen_get_property_unfold, Hres.
    destruct (sorted (get_el_amt_dict c).*1) as [|el rest] eqn:Hs.
    + apply sorted_nil_inv, fmap_nil_inv in Hs. done.
    + destruct (Hels el) as (Hel & radii & Hattr).
      { rewrite <- elem_of_sorted, Hs. left. }
      rewrite loop_cons, Element_ok, Hattr, value_and_unit_ionic by done.
      rewrite bool_decide_eq_false_2; [done|]. intros Hne'. by apply Hne'.
  - intros comp c ox Hres Hels.
    assert (Hval : forall el, el ∈ (get_el_amt_dict c).*1 ->
              exists radii o r, getattr el "ionic_radii" = Some (PDict radii) /\
                ox !! el = Some o /\ radii !! o = Some r /\
                value_and_unit ox el "ionic_radii" (PDict radii) = Ok (Some r, Some "ang") /\
                resolved ox "ionic_radii" el = Some r).
    { intros el Hel. destruct (Hels el Hel) as (_ & radii & o & r & Hattr & Ho & Hr).
      assert (Hv : value_and_unit ox el "ionic_radii" (PDict radii)
                   = Ok (Some r, Some "ang")).
      { rewrite value_and_unit_ionic, bool_decide_eq_true_2, Ho, Hr; [done|].
        intros ->. by rewrite lookup_empty in Ho. }
      exists radii, o, r. split_and!; try done.
      by apply (resolves_value _ _ _ _ _ _ Hattr Hv). }
    split.
    + rewrite pymatgen_get_property_unfold, Hres.
      destruct (loop_spec ox (get_el_amt_dict c) "ionic_radii" _
                  (sorted_keys_subseteq _) [] []) as [Hgo _].
      rewrite Hgo; [done|]. apply Forall_forall. intros el Hel.
      rewrite elem_of_sorted in Hel.
      destruct (Hval el Hel) as (radii & o & r & Hattr & _ & _ & Hv & Hr).
      split; [by apply Hels|]. exists (PDict radii), (Some "ang").
      by rewrite Hr.
    + intros el Hel.
      destruct (Hval el Hel) as (radii & o & r & Hattr & Ho & Hr & _ & Hres').
      exists radii, o. by rewrite Hres', Hr.
  - intros comp c ox el0 radii0 Hres Hne Hels Hel0 Hattr0 Hbad.
    rewrite pymatgen_get_property_unfold, Hres.
    apply (loop_ionic_key_error ox (get_el_amt_dict c) _ el0 radii0); try done.
    + apply sorted_keys_subseteq.
    + intros el Hel. apply Hels. by rewrite <- elem_of_sorted.
    + by rewrite elem_of_sorted.
Qed.

End LiveFacts.

Ltac sample_keys Hel :=
  vm_compute in Hel;
  repeat (apply elem_of_cons in Hel as [->|Hel]);
  [..|by apply elem_of_nil in Hel].

Lemma missing_attribute_prints_then_raises_witness :
  PymatgenData.get_property (H := Sample.world) (CompStr "Fe2O3") "foo"
  = IO ["foo attribute missing"] (Raise (AttributeError "foo")).
Proof.
  apply (missing_attribute_prints_then_raises (H := Sample.world) (CompStr "Fe2O3") "foo"
           [Sample.plain "Fe" 2; Sample.plain "O" 3] ∅).
  - reflexivity.
  - discriminate.
  - intros el Hel. sample_keys Hel; reflexivity.
  - intros el. reflexivity.
Defined.

Lemma none_attribute_gives_none_witness :
  exists before after : list string,
    sorted (H := Sample.world) ["Fe"; "O"] = before ++ "O" :: after /\
    PymatgenData.get_property (H := Sample.world) (CompStr "Fe2O3")
      "superconduction_temperature"
    = IO [] (Ok (flat_map (fun e => per_atom
                                      (resolved (H := Sample.world) ∅
                                         "superconduction_temperature" e)
                                      (amount [("Fe", 2%Q); ("O", 3%Q)] e)) before
                 ++ replicate 3 None
                 ++ flat_map (fun e => per_atom
                                         (resolved (H := Sample.world) ∅
                                            "superconduction_temperature" e)
                                         (amount [("Fe", 2%Q); ("O", 3%Q)] e)) after)).
Proof.
  apply (none_attribute_gives_none (H := Sample.world) (CompStr "Fe2O3")
           "superconduction_temperature" "O" [Sample.plain "Fe" 2; Sample.plain "O" 3] ∅).
  - reflexivity.
  - apply (bool_decide_unpack _). vm_compute. exact I.
  - reflexivity.
  - reflexivity.
  - intros el Hel Hne. sample_keys Hel; [|done].
    split; [reflexivity|]. exists PNone, None. split; reflexivity.
Defined.

Lemma ionic_radii_oxidation_states_witness :
  PymatgenData.get_property (H := Sample.world) (CompStr "Fe2O3") "ionic_radii"
  = IO [] (Raise (ValueError
      "oxidation state not given for ionic_radii; It does not yield a unique number per Element")) /\
  PymatgenData.get_property (H := Sample.world) (CompStr "Fe2+3O3-2") "ionic_radii"
  = IO [] (Ok [Some (FNum (785 # 1000)); Some (FNum (785 # 1000));
               Some (FNum (126 # 100)); Some (FNum (126 # 100)); Some (FNum (126 # 100))]) /\
  (exists (before after : list string) (el : string) (radii : gmap Z pyfloat),
      sorted (H := Sample.world) ["O"; "Fe"] = before ++ el :: after /\
      Forall (fun e => exists r,
                resolved (H := Sample.world) {[ "O" := 3%Z ]} "ionic_radii" e = Some r)
        before /\
      Sample.attribute el "ionic_radii" = Some (PDict radii) /\
      ((({[ "O" := 3%Z ]} : gmap string Z) !! el = None /\
        PymatgenData.get_property (H := Sample.world) (CompStr "O3Fe2+3") "ionic_radii"
        = IO [] (Raise (KeyError (KStr el)))) \/
       (exists o, ({[ "O" := 3%Z ]} : gmap string Z) !! el = Some o /\
          radii !! o = None /\
          PymatgenData.get_property (H := Sample.world) (CompStr "O3Fe2+3") "ionic_radii"
          = IO [] (Raise (KeyError (KInt o)))))).
Proof.
  destruct (ionic_radii_oxidation_states (H := Sample.world))
    as (_ & Hempty & Hstates & Hkey).
  split_and!.
  - apply (Hempty (CompStr "Fe2O3") [Sample.plain "Fe" 2; Sample.plain "O" 3]).
    + reflexivity.
    + discriminate.
    + intros el Hel. sample_keys Hel; (split; [reflexivity | eexists; reflexivity]).
  - destruct (Hstates (CompStr "Fe2+3O3-2") [Sample.plain "Fe" 2; Sample.plain "O" 3]
                {[ "Fe" := 3%Z; "O" := (-2)%Z ]}) as [Hcall _].
    + reflexivity.
    + intros el Hel. sample_keys Hel; (split; [reflexivity|]).
      * exists (Sample.radii "Fe"), 3%Z, (FNum (785 # 1000)). by split_and!.
      * exists (Sample.radii "O"), (-2)%Z, (FNum (126 # 100)). by split_and!.
    + rewrite Hcall. reflexivity.
  - apply (Hkey (CompStr "O3Fe2+3") [Sample.plain "O" 3; Sample.plain "Fe" 2]
             {[ "O" := 3%Z ]} "Fe" (Sample.radii "Fe")).
    + reflexivity.
    + intros Hx. assert (Hl := f_equal (lookup "O") Hx). vm_compute in Hl. discriminate Hl.
    + intros el Hel. sample_keys Hel; (split; [reflexivity | eexists; reflexivity]).
    + apply (bool_decide_unpack _). vm_compute. exact I.
    + reflexivity.
    + left. reflexivity.
Defined.

(** C5 as the claim has it fails: in ["O3Fe2+3"] no oxidation state is
    found for iron (the parser gives the [+3] to oxygen), and the call
    raises [KeyError], not the [ValueError] of the missing oxidation
    state. *)
Lemma ionic_radii_missing_state_counterexample :
  PymatgenData.resolve (H := Sample.world) (CompStr "O3Fe2+3")
  = Ok ([Sample.plain "O" 3; Sample.plain "Fe" 2], {[ "O" := 3%Z ]}) /\
  ({[ "O" := 3%Z ]} : gmap string Z) !! "Fe" = None /\
  PymatgenData.get_property (H := Sample.world) (CompStr "O3Fe2+3") "ionic_radii"
  = IO [] (Raise (KeyError (KStr "Fe"))) /\
  ~ (forall (comp : comp_arg) (c : Composition) (ox : gmap string Z) (el : string),
        PymatgenData.resolve (H := Sample.world) comp = Ok (c, ox) ->
        el ∈ (get_el_amt_dict c).*1 ->
        ox !! el = None ->
        exists msg : string,
          outcome (PymatgenData.get_property (H := Sample.world) comp "ionic_radii")
          = Raise (ValueError msg)).
Proof.
  split_and!; [reflexivity..|].
  intros Hclaim.
  destruct (Hclaim (CompStr "O3Fe2+3") [Sample.plain "O" 3; Sample.plain "Fe" 2]
              {[ "O" := 3%Z ]} "Fe") as [msg Hmsg].
  - reflexivity.
  - apply (bool_decide_unpack _). vm_compute. exact I.
  - reflexivity.
  - vm_compute in Hmsg. discriminate Hmsg.
Qed.

(** * Splitting on runs of a character class *)

Section SplitFacts.
Variable p : ascii -> bool.

Lemma existsb_str_app (q : ascii -> bool) (a b : string) :
  Py.existsb_str q (a +:+ b) = Py.existsb_str q a || Py.existsb_str q b.
Proof.
  induction a as [|x a IH]; [done|].
  rewrite ?str_app_cons. simpl. by rewrite IH, orb_assoc.
Qed.

Lemma forallb_existsb_str (q r : ascii -> bool) (s : string) :
  (forall c, q c = true -> r c = false) ->
  Py.forallb_str q s = true -> Py.existsb_str r s = false.
Proof.
  intros Hqr. induction s as [|x s IH]; simpl; [done|].
  intros [Hx Hs]%andb_true_iff. by rewrite (Hqr _ Hx), IH.
Qed.

(** A string without a character of the class is one piece. *)
Lemma split_plus_none (s : string) (b : bool) :
  Py.existsb_str p s = false -> Py.re_split_plus_from p b s = [s].
Proof.
  revert b. induction s as [|x s IH]; intros b; simpl; [done|].
  intros [Hx Hs]%orb_false_iff. by rewrite Hx, IH.
Qed.

(** A string without a character of the class is added to the first piece
    of what follows it. *)
Lemma split_plus_prepend (seg t h : string) (tl : list string) :
  Py.existsb_str p seg = false ->
  Py.re_split_plus_from p false t = h :: tl ->
  Py.re_split_plus_from p false (seg +:+ t) = (seg +:+ h) :: tl.
Proof.
  intros Hseg Ht. induction seg as [|x seg IH]; [done|].
  simpl in Hseg. apply orb_false_iff in Hseg as [Hx Hseg].
  rewrite ?str_app_cons. simpl. by rewrite Hx, (IH Hseg).
Qed.


(** A run of characters of the class is skipped. *)
Lemma split_plus_skip (run t : string) :
  Py.forallb_str p run = true ->
  Py.re_split_plus_from p true (run +:+ t) = Py.re_split_plus_from p true t.
Proof.
  induction run as [|x run IH]; [done|].
  simpl. intros [Hx Hrun]%andb_true_iff. rewrite ?str_app_cons. simpl.
  by rewrite Hx, IH.
Qed.

(** A run of characters of the class ends a piece. *)
Lemma split_plus_run (run t : string) :
  run <> EmptyString ->
  Py.forallb_str p run = true ->
  Py.re_split_plus_from p false (run +:+ t)
  = EmptyString :: Py.re_split_plus_from p true t.
Proof.
  destruct run as [|x run]; [done|]. intros _.
  simpl. intros [Hx Hrun]%andb_true_iff. rewrite ?str_app_cons. simpl.
  by rewrite Hx, split_plus_skip.
Qed.

Lemma hd_cons_head (x : ascii) (l : list string) :
  hd EmptyString (Py.cons_head x l) = String x (hd EmptyString l).
Proof. by destruct l. Qed.

(** What is before the first character of the class. *)
Lemma split_one_hd (pre t : string) :
  Py.existsb_str p pre = false ->
  Py.forallb_str p t = true ->
  hd EmptyString (Py.re_split_one p (pre +:+ t)) = pre.
Proof.
  intros Hpre Ht. induction pre as [|x pre IH].
  - destruct t as [|y t]; [done|]. simpl in *.
    apply andb_true_iff in Ht as [-> _]. done.
  - simpl in Hpre. apply orb_false_iff in Hpre as [Hx Hpre].
    rewrite ?str_app_cons. simpl. by rewrite Hx, hd_cons_head, IH.
Qed.

End SplitFacts.

(** * Character classes *)

Section ClassFacts.

Ltac by_cases c :=
  destruct c as [[] [] [] [] [] [] [] []]; vm_compute; intros; congruence.


Lemma alpha_not_sign (c : ascii) : Py.is_alpha c = true -> Py.is_sign c = false.
Proof. by_cases c. Qed.


Lemma digit_not_alpha (c : ascii) : Py.is_digit c = true -> Py.is_alpha c = false.
Proof. by_cases c. Qed.

Lemma digit_not_sign (c : ascii) : Py.is_digit c = true -> Py.is_sign c = false.
Proof. by_cases c. Qed.

Lemma digit_not_space (c : ascii) : Py.is_digit c = true -> Py.is_space c = false.
Proof. by_cases c. Qed.

Lemma sign_not_alpha (c : ascii) : Py.is_sign c = true -> Py.is_alpha c = false.
Proof. by_cases c. Qed.

Lemma sign_not_digit (c : ascii) : Py.is_sign c = true -> Py.is_digit c = false.
Proof. by_cases c. Qed.

Lemma sign_not_space (c : ascii) : Py.is_sign c = true -> Py.is_space c = false.
Proof. by_cases c. Qed.

Lemma sign_plus_or_minus (c : ascii) :
  Py.is_sign c = true ->
  (nat_of_ascii c =? 43)%nat = true \/
  ((nat_of_ascii c =? 43)%nat = false /\ (nat_of_ascii c =? 45)%nat = true).
Proof.
  unfold Py.is_sign. destruct (nat_of_ascii c =? 43)%nat; [by left|].
  simpl. intros ->. by right.
Qed.

Lemma lstrip_id (s : string) : Py.existsb_str Py.is_space s = false -> Py.lstrip s = s.
Proof.
  destruct s as [|x s]; [done|]. simpl.
  intros [-> _]%orb_false_iff. done.
Qed.

Lemma rstrip_id (s : string) : Py.existsb_str Py.is_space s = false -> Py.rstrip s = s.
Proof.
  induction s as [|x s IH]; [done|]. simpl.
  intros [Hx Hs]%orb_false_iff. rewrite (IH Hs), Hx. by destruct s.
Qed.

(** A string without white space is its own [strip()]. *)
Lemma strip_id (s : string) : Py.existsb_str Py.is_space s = false -> Py.strip s = s.
Proof. intros Hs. unfold Py.strip. by rewrite lstrip_id, rstrip_id. Qed.

Lemma not_space_not_int_space (c : ascii) :
  Py.is_space c = false -> Py.is_int_space c = false.
Proof. by_cases c. Qed.

(** [int()] skips nothing of a string without white space. *)
Lemma skip_id (s : string) :
  Py.existsb_str Py.is_space s = false -> Py.skip_right (Py.skip_left s) = s.
Proof.
  intros Hs. assert (Hl : Py.skip_left s = s).
  { destruct s as [|x s]; [done|]. simpl in *.
    apply orb_false_iff in Hs as [Hx _]. by rewrite (not_space_not_int_space _ Hx). }
  rewrite Hl. induction s as [|x s IH]; [done|]. simpl in *.
  apply orb_false_iff in Hs as [Hx Hs].
  rewrite IH, (not_space_not_int_space _ Hx); [by destruct s|done|].
  destruct s as [|y s]; [done|]. simpl in *.
  apply orb_false_iff in Hs as [Hy _]. by rewrite (not_space_not_int_space _ Hy).
Qed.

End ClassFacts.

(** * Splitting on runs of a character class, continued *)

Section SplitMore.
Variable p : ascii -> bool.

(** A split has at least one piece. *)
Lemma split_plus_not_nil (s : string) (b : bool) :
  Py.re_split_plus_from p b s <> [].
Proof.
  revert b. induction s as [|c s IH]; intros b; simpl; [done|].
  destruct (p c).
  - destruct b; [apply IH | done].
  - by destruct (Py.re_split_plus_from p false s).
Qed.





End SplitMore.

(** * White space, continued *)

Section StripMore.



















End StripMore.

(** * The parser on decorated formulas *)

Section DecoratedFacts.
Context `{Pymatgen}.
Import OxidationStateParser.



(** ** The segments that have a sign *)


















(** ** The tokens *)






(** ** The parts of the plain formula *)



Lemma strip_prefix_app (x t : string) : Py.strip_prefix x (x +:+ t) = Some t.
Proof.
  induction x as [|a x IH]; [done|].
  rewrite str_app_cons. simpl. by rewrite Ascii.eqb_refl.
Qed.

(** A token that starts with a character of a class is first found after a
    text without a character of that class. *)
Lemma partition_first (q : ascii -> bool) (c : ascii) (d pre t : string) :
  q c = true ->
  Py.existsb_str q pre = false ->
  Py.partition (String c d) (pre +:+ String c d +:+ t) = Some (pre, t).
Proof.
  intros Hc. induction pre as [|x pre IH]; intros Hpre.
  - change (EmptyString +:+ String c d +:+ t) with (String c d +:+ t).
    pose proof (strip_prefix_app (String c d) t) as Hsp.
    rewrite str_app_cons in *. simpl in *. by rewrite Hsp.
  - simpl in Hpre. apply orb_false_iff in Hpre as [Hx Hpre].
    rewrite str_app_cons. simpl.
    destruct (Ascii.eqb_spec c x) as [->|_]; [congruence|].
    by rewrite (IH Hpre).
Qed.












(** ** The same in the words of the specification *)













End DecoratedFacts.




(** * Further properties: one value per atom, in a canonical order *)

Section AtomsAndOrder.
Context `{Pymatgen}.

Lemma length_flat_map_per_atom {A : Type} (v : string -> A) (d : list (string * Q))
    (symbols : list string) :
  length (flat_map (fun el => per_atom (v el) (amount d el)) symbols)
  = sum_list_with (atoms d) symbols.
Proof.
  induction symbols as [|el symbols IH]; [done|].
  simpl. rewrite length_app, IH, per_atom_amount, length_replicate. done.
Qed.

Lemma sum_list_with_perm {A : Type} (f : A -> nat) (l1 l2 : list A) :
  l1 ≡ₚ l2 -> sum_list_with f l1 = sum_list_with f l2.
Proof. induction 1; simpl; lia. Qed.

(** X1: a call of [get_property] that returns, on either source, returns
    as many values as the composition has atoms: the sum of [int(amount)]
    over its elements. *)
Theorem get_property_length :
  (forall (self : MagpieData.t) (comp : comp_arg) (property_name : string)
          (l : list table_value),
      MagpieData.get_property self comp property_name = Ok l ->
      exists c : Composition,
        MagpieData.Composition_ctor comp = Ok c /\
        length l = total_atoms (get_el_amt_dict c)) /\
  (forall (comp : comp_arg) (property_name : string) (l : list (option pyfloat)),
      outcome (PymatgenData.get_property comp property_name) = Ok l ->
      exists (c : Composition) (ox : gmap string Z),
        PymatgenData.resolve comp = Ok (c, ox) /\
        length l = total_atoms (get_el_amt_dict c)).
Proof.
  split.
  - intros self comp property_name l Hl.
    apply magpie_get_property_inv in Hl as (c & Hc & _ & Hl).
    apply expand_spec in Hl as [_ ->]; [|apply sorted_keys_subseteq].
    exists c. split; [done|].
    rewrite length_flat_map_per_atom. apply sum_list_with_perm, sorted_perm.
  - intros comp property_name l Hl.
    rewrite pymatgen_get_property_unfold in Hl.
    destruct (PymatgenData.resolve comp) as [[c ox]|e]; [|done].
    pose proof (loop_spec ox (get_el_amt_dict c) property_name _
                  (sorted_keys_subseteq _) [] []) as [Hgo Hinv].
    specialize (Hinv l Hl). rewrite (Hgo Hinv) in Hl. simpl in Hl.
    injection Hl as <-. exists c, ox. split; [done|].
    rewrite length_flat_map_per_atom. apply sum_list_with_perm, sorted_perm.
Qed.

Lemma ascending_head_le (x : string) (l : list string) (y : string) :
  ascending (x :: l) -> y ∈ x :: l -> (X x <= X y)%Q.
Proof.
  intros Hs Hy. apply StronglySorted_inv in Hs as [_ Hall].
  apply elem_of_cons in Hy as [->|Hy]; [apply Qle_refl|].
  rewrite Forall_forall in Hall. by apply Hall.
Qed.

(** Two ascending arrangements of the same elements are equal when no two
    different elements have the same electronegativity. *)
Lemma ascending_unique (l1 l2 : list string) :
  ascending l1 -> ascending l2 -> l1 ≡ₚ l2 ->
  (forall a b, a ∈ l1 -> b ∈ l1 -> (X a == X b)%Q -> a = b) ->
  l1 = l2.
Proof.
  revert l2. induction l1 as [|x l1 IH]; intros l2 H1 H2 Hp Hinj.
  - by apply Permutation_nil in Hp.
  - destruct l2 as [|y l2]; [by apply Permutation_nil_r in Hp|].
    assert (Hyx : y ∈ x :: l1) by (rewrite Hp; left).
    assert (Hxy : x ∈ y :: l2) by (rewrite <- Hp; left).
    assert (x = y) as <-.
    { apply Hinj; [left|done|].
      apply Qle_antisym; [by eapply ascending_head_le | by eapply ascending_head_le]. }
    f_equal. apply IH.
    + by apply StronglySorted_inv in H1 as [? _].
    + by apply StronglySorted_inv in H2 as [? _].
    + by apply Permutation_cons_inv in Hp.
    + intros a b Ha Hb. apply Hinj; by right.
Qed.

Lemma sorted_canonical (l1 l2 : list string) :
  l1 ≡ₚ l2 ->
  (forall a b, a ∈ l1 -> b ∈ l1 -> (X a == X b)%Q -> a = b) ->
  sorted l1 = sorted l2.
Proof.
  intros Hp Hinj. apply ascending_unique; try apply sorted_ascending.
  - by rewrite !sorted_perm.
  - intros a b Ha Hb. rewrite sorted_perm in Ha, Hb. by apply Hinj.
Qed.

Lemma dict_get_perm (d1 d2 : list (string * Q)) (k : string) :
  NoDup d1.*1 -> d1 ≡ₚ d2 -> dict_get d1 k = dict_get d2 k.
Proof.
  intros Hnd Hp. induction Hp as [|[k' a] d1 d2 Hp IH|[k1 a1] [k2 a2] d|d1 d2 d3 Hp1 IH1 Hp2 IH2].
  - done.
  - simpl. destruct (String.eqb k' k); [done|]. apply IH.
    by apply NoDup_cons in Hnd as [_ ?].
  - simpl. destruct (String.eqb_spec k1 k) as [->|?];
      destruct (String.eqb_spec k2 k) as [->|?]; try done.
    csimpl in Hnd. apply NoDup_cons in Hnd as [Hnin _].
    exfalso. apply Hnin. left.
  - rewrite IH1 by done. apply IH2. by rewrite <- Hp1.
Qed.

Lemma expand_ext (self : MagpieData.t) (property_name : string)
    (d1 d2 : list (string * Q)) (symbols : list string) :
  (forall k, dict_get d1 k = dict_get d2 k) ->
  MagpieData.expand self property_name d1 symbols
  = MagpieData.expand self property_name d2 symbols.
Proof.
  intros Hd. induction symbols as [|el symbols IH]; [done|].
  simpl. by rewrite Hd, IH.
Qed.

(** X2: the order of the keys of the element->amount dictionary does not
    matter: when no two elements of the composition have the same
    electronegativity, two compositions whose dictionaries hold the same
    amounts give the same result on the table-backed source. *)
Theorem magpie_get_property_canonical (self : MagpieData.t) (c1 c2 : Composition)
    (property_name : string) :
  get_el_amt_dict c1 ≡ₚ get_el_amt_dict c2 ->
  (forall a b, a ∈ (get_el_amt_dict c1).*1 -> b ∈ (get_el_amt_dict c1).*1 ->
               (X a == X b)%Q -> a = b) ->
  MagpieData.get_property self (CompObj c1) property_name
  = MagpieData.get_property self (CompObj c2) property_name.
Proof.
  intros Hp Hinj. unfold MagpieData.get_property. cbn [MagpieData.Composition_ctor].
  cbn [mbind res_bind rbind]. case_bool_decide; [|done]. cbv zeta.
  rewrite (sorted_canonical _ (get_el_amt_dict c2).*1); [|by rewrite Hp|done].
  apply expand_ext. intros k. apply dict_get_perm; [apply get_el_amt_dict_NoDup|done].
Qed.

(** X3: elements of equal electronegativity come in the order of the keys
    of the element->amount dictionary: the sort of [get_property] does not
    exchange them. *)
Theorem ties_keep_dictionary_order (d : list (string * Q)) (k : Q) :
  filter (fun s => Qeq_bool (X s) k = true) (sorted d.*1)
  = filter (fun s => Qeq_bool (X s) k = true) d.*1.
Proof. apply sorted_stable. Qed.

End AtomsAndOrder.

Lemma get_property_length_witness :
  length [VFloat (FNum (183 # 100)); VFloat (FNum (183 # 100)); VFloat (FNum (344 # 100));
          VFloat (FNum (344 # 100)); VFloat (FNum (344 # 100))]
  = total_atoms [("Fe", 2%Q); ("O", 3%Q)].
Proof.
  destruct (get_property_length (H := Sample.world)) as [Hmagpie _].
  destruct (Hmagpie Sample.magpie (CompStr "Fe2O3") "Electronegativity" _ eq_refl)
    as (c & Hc & Hlen).
  injection Hc as <-. exact Hlen.
Defined.

Lemma magpie_get_property_canonical_witness :
  MagpieData.get_property (H := Sample.world) Sample.magpie
    (CompObj [Sample.plain "Fe" 2; Sample.plain "O" 3]) "Number"
  = MagpieData.get_property (H := Sample.world) Sample.magpie
      (CompObj [Sample.plain "O" 3; Sample.plain "Fe" 2]) "Number".
Proof.
  apply (magpie_get_property_canonical (H := Sample.world)).
  - apply perm_swap.
  - intros a b Ha Hb Heq. sample_keys Ha; sample_keys Hb; try done;
      vm_compute in Heq; discriminate Heq.
Defined.

(** * Further properties: the table-backed source *)

Section MagpieFacts.
Context `{Pymatgen}.
Import MagpieData.

Lemma flat_map_nil_atoms {A : Type} (v : string -> A) (d : list (string * Q))
    (symbols : list string) :
  (forall el, el ∈ symbols -> atoms d el = 0%nat) ->
  flat_map (fun el => per_atom (v el) (amount d el)) symbols = [].
Proof.
  induction symbols as [|el symbols IH]; intros Hz; [done|].
  simpl. rewrite per_atom_amount, (Hz el) by left. simpl.
  apply IH. intros el' Hel'. apply Hz. by right.
Qed.

(** X4: amounts are truncated: for a composition in which every element
    has an amount below one, an available property gives the empty list,
    whatever the table holds. *)
Theorem magpie_no_atom_empty (self : MagpieData.t) (comp : comp_arg)
    (property_name : string) (c : Composition) :
  Composition_ctor comp = Ok c ->
  property_name ∈ available_props self ->
  (forall el, el ∈ (get_el_amt_dict c).*1 -> (amount (get_el_amt_dict c) el < 1)%Q) ->
  get_property self comp property_name = Ok [].
Proof.
  intros Hc Hin Hlt.
  assert (Hz : forall el, el ∈ (get_el_amt_dict c).*1 ->
                 atoms (get_el_amt_dict c) el = 0%nat).
  { intros el Hel. specialize (Hlt el Hel).
    destruct (atoms (get_el_amt_dict c) el) eqn:Hn; [done|].
    assert (Hpos : (0 < atoms (get_el_amt_dict c) el)%nat) by lia.
    apply atoms_pos in Hpos. by apply Qlt_not_le in Hlt. }
  unfold get_property. rewrite Hc. cbn [mbind res_bind rbind].
  rewrite bool_decide_eq_true_2 by done. cbv zeta.
  apply expand_spec; [apply sorted_keys_subseteq|]. split.
  - apply Forall_forall. intros el Hel Hpos.
    rewrite elem_of_sorted in Hel. rewrite (Hz el Hel) in Hpos. lia.
  - symmetry. apply flat_map_nil_atoms. intros el Hel.
    rewrite elem_of_sorted in Hel. by apply Hz.
Qed.

Lemma expand_raise_key (self : MagpieData.t) (property_name : string)
    (el_amt : list (string * Q)) (symbols : list string) (e : exn) :
  symbols ⊆ el_amt.*1 ->
  expand self property_name el_amt symbols = Raise e ->
  exists el : string,
    e = KeyError (KStr el) /\ el ∈ symbols /\ (0 < atoms el_amt el)%nat /\
    row (all_elemental_props self) property_name !! el = None.
Proof.
  revert e. induction symbols as [|el symbols IH]; intros e Hsub; simpl; [done|].
  assert (Hel : el ∈ el_amt.*1) by (apply Hsub; left).
  assert (Hrest : symbols ⊆ el_amt.*1) by (intros x Hx; apply Hsub; by right).
  rewrite (dict_get_key _ _ Hel). cbn [mbind res_bind rbind].
  fold (atoms el_amt el).
  assert (Hlater : forall e',
            expand self property_name el_amt symbols = Raise e' ->
            exists el0 : string,
              e' = KeyError (KStr el0) /\ el0 ∈ el :: symbols /\
              (0 < atoms el_amt el0)%nat /\
              row (all_elemental_props self) property_name !! el0 = None).
  { intros e' He'. destruct (IH e' Hrest He') as (el0 & -> & Hin & Hpos & Hnone).
    exists el0. split_and!; [done|by right|done|done]. }
  destruct (atoms el_amt el) as [|n] eqn:Hn; cbn [mbind res_bind rbind].
  - destruct (expand self property_name el_amt symbols) as [more|e'] eqn:Hm;
      cbn [rbind]; [done|]. intros [= <-]. by apply Hlater.
  - unfold table_get. fold (row (all_elemental_props self) property_name).
    destruct (row (all_elemental_props self) property_name !! el) as [v|] eqn:Hv;
      cbn [rbind].
    + destruct (expand self property_name el_amt symbols) as [more|e'] eqn:Hm;
        cbn [rbind]; [done|]. intros [= <-]. by apply Hlater.
    + intros [= <-]. exists el. split_and!; [done|left|lia|done].
Qed.

(** X5: once the composition is built and the property is known to be
    available, the table-backed source can only fail with a [KeyError] that
    names an element of the composition that has an atom and no cell in the
    table. *)
Theorem magpie_only_key_error (self : MagpieData.t) (comp : comp_arg)
    (property_name : string) (c : Composition) (e : exn) :
  Composition_ctor comp = Ok c ->
  property_name ∈ available_props self ->
  get_property self comp property_name = Raise e ->
  exists el : string,
    e = KeyError (KStr el) /\ el ∈ (get_el_amt_dict c).*1 /\
    (0 < atoms (get_el_amt_dict c) el)%nat /\
    row (all_elemental_props self) property_name !! el = None.
Proof.
  intros Hc Hin. unfold get_property. rewrite Hc. cbn [mbind res_bind rbind].
  rewrite bool_decide_eq_true_2 by done. cbv zeta. intros He.
  apply expand_raise_key in He as (el & -> & Hel & Hpos & Hnone);
    [|apply sorted_keys_subseteq].
  exists el. rewrite elem_of_sorted in Hel. done.
Qed.

(** The loop over the atomic numbers, when it ends: the file has a line
    for each atomic number, each of them has a cell in the row, and no cell
    of the table is lost. *)
Lemma parse_rows_inv (name : string) (lines : list string) (zs : list nat)
    (tbl tbl' : gmap string (gmap string table_value)) :
  parse_rows name lines zs tbl = Ok tbl' ->
  (forall z, z ∈ zs -> ((z - 1) < length lines)%nat) /\
  (forall z, z ∈ zs -> is_Some (row tbl' name !! from_Z z)) /\
  (forall n sym, is_Some (row tbl n !! sym) -> is_Some (row tbl' n !! sym)).
Proof.
  revert tbl. induction zs as [|z zs IH]; intros tbl; simpl.
  - intros [= <-]. split_and!; [by intros z ?%elem_of_nil..|done].
  - destruct (lines !! (z - 1)%nat) as [line|] eqn:Hline; [|done].
    intros Hrun. destruct (IH _ Hrun) as (Hlen & Hcells & Hmono).
    assert (Hstep : forall n sym, is_Some (row tbl n !! sym) ->
              is_Some (row (store tbl name (from_Z z) (parse_cell name line)) n !! sym)).
    { intros n sym Hs. destruct (decide (n = name)) as [->|Hne].
      - rewrite row_store_eq. destruct (decide (from_Z z = sym)) as [->|Hsym].
        + rewrite lookup_insert_eq. by eexists.
        + by rewrite lookup_insert_ne.
      - unfold row. by rewrite store_other. }
    split_and!.
    + intros z' [->|Hz']%elem_of_cons; [by apply lookup_lt_Some in Hline | by apply Hlen].
    + intros z' [->|Hz']%elem_of_cons; [|by apply Hcells].
      apply Hmono. rewrite row_store_eq, lookup_insert_eq. by eexists.
    + intros n sym Hs. by apply Hmono, Hstep.
Qed.

Lemma parse_files_inv (dir : directory) (props : list string)
    (tbl0 tbl : gmap string (gmap string table_value)) :
  parse_files dir props tbl0 = Ok tbl ->
  (forall name, name ∈ props ->
     (exists lines, readlines dir (name +:+ ".table") = Ok lines /\
                    (pt_data_len <= length lines)%nat) /\
     forall z, (1 <= z <= pt_data_len)%nat -> is_Some (row tbl name !! from_Z z)) /\
  (forall n sym, is_Some (row tbl0 n !! sym) -> is_Some (row tbl n !! sym)).
Proof.
  revert tbl0. induction props as [|name props IH]; intros tbl0; simpl.
  - intros [= <-]. split; [by intros name ?%elem_of_nil|done].
  - destruct (readlines dir (name +:+ ".table")) as [lines|e] eqn:Hread;
      cbn [mbind res_bind rbind]; [|done].
    destruct (parse_rows name lines (seq 1 pt_data_len) tbl0) as [tbl1|e] eqn:Hrows;
      cbn [rbind]; [|done].
    intros Hrest. destruct (IH _ Hrest) as (Hprops & Hmono).
    destruct (parse_rows_inv _ _ _ _ _ Hrows) as (Hlen & Hcells & Hmono1).
    split.
    + intros n [->|Hn]%elem_of_cons; [|by apply Hprops]. split.
      * exists lines. split; [done|].
        destruct pt_data_len as [|k] eqn:HN; [lia|].
        assert (Hk : ((S k - 1) < length lines)%nat)
          by (apply Hlen, elem_of_seq; lia). lia.
      * intros z Hz. apply Hmono, Hcells, elem_of_seq. lia.
    + intros n sym Hs. by apply Hmono, Hmono1.
Qed.

(** X6: when [__init__] returns a table, every available property has a
    file in the directory with a line for each atomic number, and the table
    has a cell for that property and every element of the periodic
    table. *)
Theorem init_complete (dir : directory) (self : MagpieData.t) :
  init dir = Ok self ->
  forall name : string,
    name ∈ available_props self ->
    (exists lines, readlines dir (name +:+ ".table") = Ok lines /\
                   (pt_data_len <= length lines)%nat) /\
    forall z, (1 <= z <= pt_data_len)%nat ->
              exists v, table_get self name (from_Z z) = Ok v.
Proof.
  unfold init, _parse.
  destruct (parse_files dir _ ∅) as [tbl|e] eqn:Hparse; cbn [mbind res_bind rbind]; [|done].
  intros [= <-] name Hname. cbn [available_props] in Hname.
  destruct (parse_files_inv _ _ _ _ Hparse) as (Hprops & _).
  destruct (Hprops name Hname) as (Hfile & Hcells). split; [done|].
  intros z Hz. destruct (Hcells z Hz) as [v Hv]. exists v.
  unfold table_get. cbn [all_elemental_props]. unfold row in Hv. by rewrite Hv.
Qed.

(** X7: construction and lookup compose: on the table that [__init__]
    returns, an available property of a composition whose elements are
    elements of the periodic table is looked up without error. *)
Theorem init_then_get_property (dir : directory) (self : MagpieData.t)
    (comp : comp_arg) (property_name : string) (c : Composition) :
  init dir = Ok self ->
  property_name ∈ available_props self ->
  Composition_ctor comp = Ok c ->
  (forall el, el ∈ (get_el_amt_dict c).*1 ->
     exists z, (1 <= z <= pt_data_len)%nat /\ el = from_Z z) ->
  exists l : list table_value,
    get_property self comp property_name = Ok l /\
    length l = total_atoms (get_el_amt_dict c).
Proof.
  intros Hinit Hin Hc Hels.
  destruct (get_property self comp property_name) as [l|e] eqn:Hget.
  - exists l. split; [done|].
    apply magpie_get_property_inv in Hget as (c' & Hc' & _ & Hl).
    rewrite Hc in Hc'. injection Hc' as <-.
    apply expand_spec in Hl as [_ ->]; [|apply sorted_keys_subseteq].
    rewrite length_flat_map_per_atom. apply sum_list_with_perm, sorted_perm.
  - exfalso. unfold get_property in Hget. rewrite Hc in Hget.
    cbn [mbind res_bind rbind] in Hget.
    rewrite bool_decide_eq_true_2 in Hget by done. cbv zeta in Hget.
    apply expand_raise_key in Hget as (el & _ & Hel & _ & Hnone);
      [|apply sorted_keys_subseteq].
    rewrite elem_of_sorted in Hel. destruct (Hels el Hel) as (z & Hz & ->).
    unfold init, _parse in Hinit.
    destruct (parse_files dir _ ∅) as [tbl|e'] eqn:Hparse;
      cbn [mbind res_bind rbind] in Hinit; [|done].
    injection Hinit as <-. cbn [available_props all_elemental_props] in *.
    destruct (parse_files_inv _ _ _ _ Hparse) as (Hprops & _).
    destruct (Hprops property_name Hin) as (_ & Hcells).
    destruct (Hcells z Hz) as [v Hv]. by rewrite Hnone in Hv.
Qed.

End MagpieFacts.

Lemma magpie_no_atom_empty_witness :
  MagpieData.get_property (H := Sample.world) Sample.magpie
    (CompObj [({| symbol := "Fe"; oxi_state := None |}, 1 # 2);
              ({| symbol := "O"; oxi_state := None |}, 3 # 4)]) "Number"
  = Ok [].
Proof.
  eapply (magpie_no_atom_empty (H := Sample.world)).
  - reflexivity.
  - apply (bool_decide_unpack _). vm_compute. exact I.
  - intros el Hel. sample_keys Hel; reflexivity.
Defined.

Lemma magpie_only_key_error_witness :
  exists el : string,
    KeyError (KStr "Zn") = KeyError (KStr el) /\
    el ∈ (get_el_amt_dict [Sample.plain "Zn" 1]).*1 /\
    (0 < atoms (get_el_amt_dict [Sample.plain "Zn" 1]) el)%nat /\
    row (MagpieData.all_elemental_props Sample.magpie) "Number" !! el = None.
Proof.
  apply (magpie_only_key_error (H := Sample.world) Sample.magpie
           (CompObj [Sample.plain "Zn" 1]) "Number").
  - reflexivity.
  - apply (bool_decide_unpack _). vm_compute. exact I.
  - vm_compute. reflexivity.
Defined.

Lemma init_complete_witness :
  (exists lines, MagpieData.readlines Sample.data_dir ("OxidationStates" +:+ ".table")
                 = Ok lines /\ (26 <= length lines)%nat) /\
  forall z, (1 <= z <= 26)%nat ->
    exists v, MagpieData.table_get Sample.magpie "OxidationStates" (Sample.symbol_of_Z z)
              = Ok v.
Proof.
  apply (init_complete (H := Sample.world) Sample.data_dir Sample.magpie).
  - vm_compute. reflexivity.
  - apply (bool_decide_unpack _). vm_compute. exact I.
Defined.

Lemma init_then_get_property_witness :
  exists l : list table_value,
    MagpieData.get_property (H := Sample.world) Sample.magpie (CompStr "Fe2O3") "Number"
    = Ok l /\
    length l = total_atoms (get_el_amt_dict [Sample.plain "Fe" 2; Sample.plain "O" 3]).
Proof.
  apply (init_then_get_property (H := Sample.world) Sample.data_dir).
  - vm_compute. reflexivity.
  - apply (bool_decide_unpack _). vm_compute. exact I.
  - reflexivity.
  - intros el Hel. sample_keys Hel.
    + exists 26%nat. split; [simpl; lia | reflexivity].
    + exists 8%nat. split; [simpl; lia | reflexivity].
Defined.

(** * Further properties: the live-attribute source *)

Section LiveObjectFacts.
Context `{Pymatgen}.
Import PymatgenData.

Lemma species_states_decorated (elements : list Specie) :
  Forall (fun sp => oxi_state sp <> None) elements ->
  exists l : list (string * Z),
    species_states elements = Ok l /\
    l.*1 = map symbol elements /\
    forall sp, sp ∈ elements -> exists o, oxi_state sp = Some o /\ (symbol sp, o) ∈ l.
Proof.
  induction 1 as [|sp elements Hsp Hall IH].
  - exists []. split_and!; [done|done|]. by intros sp ?%elem_of_nil.
  - destruct IH as (l & Hl & Hkeys & Hin).
    destruct (oxi_state sp) as [o|] eqn:Ho; [|done].
    exists ((symbol sp, o) :: l). cbn [species_states]. rewrite Ho, Hl.
    cbn [mbind res_bind rbind].
    split_and!; [done|by rewrite fmap_cons, Hkeys|].
    intros sp' [->|Hsp']%elem_of_cons.
    + exists o. split; [done|left].
    + destruct (Hin sp' Hsp') as (o' & Ho' & Hin'). exists o'. split; [done|by right].
Qed.

Lemma species_states_plain (elements : list Specie) :
  (exists sp, sp ∈ elements /\ oxi_state sp = None) ->
  species_states elements = Raise (AttributeError "element").
Proof.
  induction elements as [|sp elements IH]; intros (sp0 & Hin & Hnone).
  - by apply elem_of_nil in Hin.
  - simpl. destruct (oxi_state sp) as [o|] eqn:Ho; [|done].
    rewrite IH; [done|]. exists sp0. split; [|done].
    apply elem_of_cons in Hin as [->|?]; [congruence|done].
Qed.

Lemma fold_insert_lookup (l : list (string * Z)) (d0 : gmap string Z) (k : string) :
  (k ∉ l.*1 -> fold_left (fun d '(k, v) => <[k := v]> d) l d0 !! k = d0 !! k) /\
  (forall v, NoDup l.*1 -> (k, v) ∈ l ->
             fold_left (fun d '(k, v) => <[k := v]> d) l d0 !! k = Some v).
Proof.
  revert d0. induction l as [|[k' v'] l IH]; intros d0; csimpl.
  - split; [done|]. by intros v _ ?%elem_of_nil.
  - split.
    + intros Hnin. apply not_elem_of_cons in Hnin as [Hne Hnin].
      rewrite (proj1 (IH _) Hnin). by rewrite lookup_insert_ne.
    + intros v Hnd Hin. apply NoDup_cons in Hnd as [Hnin Hnd].
      apply elem_of_cons in Hin as [[= -> ->]|Hin].
      * rewrite (proj1 (IH _) Hnin). by rewrite lookup_insert_eq.
      * by apply (proj2 (IH _)).
Qed.

Lemma dict_of_lookup (l : list (string * Z)) (k : string) (v : Z) :
  NoDup l.*1 -> (k, v) ∈ l -> dict_of l !! k = Some v.
Proof. intros Hnd Hin. by apply (proj2 (fold_insert_lookup l ∅ k)). Qed.

Lemma resolve_decorated (c : Composition) :
  c <> [] ->
  Forall (fun sp => oxi_state sp <> None) c.*1 ->
  NoDup (map symbol c.*1) ->
  exists d : gmap string Z,
    resolve (CompObj c) = Ok (c, d) /\
    forall sp, sp ∈ c.*1 -> d !! symbol sp = oxi_state sp.
Proof.
  intros Hne Hall Hnd. destruct c as [|[sp0 a0] rest]; [done|].
  destruct (species_states_decorated _ Hall) as (l & Hl & Hkeys & Hin).
  exists (dict_of l). cbn [resolve].
  destruct (oxi_state sp0) as [o|] eqn:Ho.
  - change (map fst ((sp0, a0) :: rest)) with (((sp0, a0) :: rest).*1).
    rewrite Hl. cbn [mbind res_bind rbind]. split; [done|].
    intros sp Hsp. destruct (Hin sp Hsp) as (o' & -> & Hpair).
    apply dict_of_lookup; [by rewrite Hkeys | done].
  - apply Forall_cons in Hall as [Hsp0 _]. simpl in Hsp0. by rewrite Ho in Hsp0.
Qed.

(** X8: the oxidation states of a [Composition] object. An empty
    composition raises [IndexError]; when its first species is a plain
    element there is no oxidation state at all; when its first species has
    an oxidation state and another one is a plain element the call raises
    [AttributeError]; when all its species have one, of different elements,
    each element is mapped to the oxidation state of its species. *)
Theorem resolve_composition_object (c : Composition) :
  (c = [] -> resolve (CompObj c) = Raise IndexError) /\
  (forall sp0 a0 rest,
      c = (sp0, a0) :: rest -> oxi_state sp0 = None ->
      resolve (CompObj c) = Ok (c, ∅)) /\
  (forall sp0 a0 rest sp,
      c = (sp0, a0) :: rest -> oxi_state sp0 <> None ->
      sp ∈ c.*1 -> oxi_state sp = None ->
      resolve (CompObj c) = Raise (AttributeError "element")) /\
  (c <> [] ->
   Forall (fun sp => oxi_state sp <> None) c.*1 ->
   NoDup (map symbol c.*1) ->
   exists d : gmap string Z,
     resolve (CompObj c) = Ok (c, d) /\
     forall sp, sp ∈ c.*1 -> d !! symbol sp = oxi_state sp).
Proof.
  split_and!.
  - by intros ->.
  - intros sp0 a0 rest -> Hnone. simpl. by rewrite Hnone.
  - intros sp0 a0 rest sp -> Hsome Hin Hnone. cbn [resolve].
    destruct (oxi_state sp0) as [o|] eqn:Ho; [|done].
    rewrite species_states_plain; [done|]. by exists sp.
  - apply resolve_decorated.
Qed.

Lemma value_and_unit_numeric (ox : gmap string Z) (el property_name : string)
    (p : attr) (v : pyfloat) :
  numeric_for property_name p v ->
  exists u : option string, value_and_unit ox el property_name p = Ok (Some v, u).
Proof.
  intros (Hne & u & -> & Hunit). unfold value_and_unit.
  rewrite (bool_decide_eq_false_2 (property_name ∈ ["ionic_radii"]))
    by (intros Hin%list_elem_of_singleton; done).
  cbn [float_of_attr mbind res_bind rbind].
  case_bool_decide as Hless; [by eexists|].
  destruct Hunit as [?|Hu]; [done|].
  destruct u as [u|]; [|done]. by eexists.
Qed.

(** X9: for an attribute that is a number for every element of the
    composition (with a unit, or under a name whose unit is not read), the
    live-attribute source prints nothing and returns [float(p)] of each
    element once per atom, in ascending order of electronegativity: a
    sequence of floats. *)
Theorem numeric_attribute_values (comp : comp_arg) (property_name : string)
    (c : Composition) (ox : gmap string Z) :
  resolve comp = Ok (c, ox) ->
  (forall el, el ∈ (get_el_amt_dict c).*1 ->
     is_element el = true /\
     exists p v, getattr el property_name = Some p /\ numeric_for property_name p v) ->
  get_property comp property_name
  = IO [] (Ok (flat_map (fun el => per_atom (resolved ox property_name el)
                                     (amount (get_el_amt_dict c) el))
                 (sorted (get_el_amt_dict c).*1))) /\
  forall el, el ∈ (get_el_amt_dict c).*1 ->
    exists p v, getattr el property_name = Some p /\ numeric_for property_name p v /\
                resolved ox property_name el = Some v.
Proof.
  intros Hres Hels.
  assert (Hval : forall el, el ∈ (get_el_amt_dict c).*1 ->
            exists p v u, getattr el property_name = Some p /\
              numeric_for property_name p v /\
              value_and_unit ox el property_name p = Ok (Some v, u) /\
              resolved ox property_name el = Some v).
  { intros el Hel. destruct (Hels el Hel) as (_ & p & v & Hp & Hnum).
    destruct (value_and_unit_numeric ox el property_name p v Hnum) as [u Hv].
    exists p, v, u. split_and!; try done. by apply (resolves_value _ _ _ _ _ _ Hp Hv). }
  split.
  - rewrite pymatgen_get_property_unfold, Hres.
    destruct (loop_spec ox (get_el_amt_dict c) property_name _
                (sorted_keys_subseteq _) [] []) as [Hgo _].
    rewrite Hgo; [done|]. apply Forall_forall. intros el Hel.
    rewrite elem_of_sorted in Hel.
    destruct (Hval el Hel) as (p & v & u & Hp & _ & Hv & Hr).
    split; [by apply Hels|]. exists p, u. by rewrite Hr.
  - intros el Hel. destruct (Hval el Hel) as (p & v & u & Hp & Hnum & _ & Hr).
    by exists p, v.
Qed.

(** X10: a numeric attribute without a unit, under a name that is not one
    of those whose unit is not read, raises [AttributeError] for the unit,
    and nothing is printed: the diagnostic is for a missing attribute
    only. *)
Theorem unitless_attribute_raises_silently (comp : comp_arg) (property_name : string)
    (c : Composition) (ox : gmap string Z) :
  resolve comp = Ok (c, ox) ->
  get_el_amt_dict c <> [] ->
  property_name ∉ unitless ->
  (forall el, el ∈ (get_el_amt_dict c).*1 ->
     is_element el = true /\
     exists v, getattr el property_name = Some (PNum v None)) ->
  get_property comp property_name = IO [] (Raise (AttributeError "unit")).
Proof.
  intros Hres Hne Hnot Hels.
  rewrite pymatgen_get_property_unfold, Hres.
  destruct (sorted (get_el_amt_dict c).*1) as [|el rest] eqn:Hs.
  - apply sorted_nil_inv, fmap_nil_inv in Hs. done.
  - destruct (Hels el) as (Hel & v & Hattr).
    { rewrite <- elem_of_sorted, Hs. left. }
    rewrite loop_cons, Element_ok, Hattr by done.
    unfold value_and_unit.
    assert (Hion : property_name ∉ ["ionic_radii"]).
    { intros Hin%list_elem_of_singleton. subst. apply Hnot.
      apply (bool_decide_unpack _). vm_compute. exact I. }
    rewrite (bool_decide_eq_false_2 (property_name ∈ ["ionic_radii"])) by done.
    cbn [float_of_attr mbind res_bind rbind].
    by rewrite bool_decide_eq_false_2 by done.
Qed.

Lemma dict_add_elem (d : list (string * Q)) (k : string) (a : Q) (x : string) :
  x ∈ (dict_add d k a).*1 <-> x ∈ d.*1 \/ x = k.
Proof.
  rewrite dict_add_keys. case_bool_decide as Hin.
  - split; [by left|]. intros [?| ->]; done.
  - rewrite elem_of_app, list_elem_of_singleton. done.
Qed.

(** The keys of the element->amount dictionary are the symbols of the
    species. *)
Lemma el_amt_keys (c : Composition) (el : string) :
  el ∈ (get_el_amt_dict c).*1 <-> exists sp, sp ∈ c.*1 /\ symbol sp = el.
Proof.
  unfold get_el_amt_dict.
  assert (Hgen : forall d0 : list (string * Q),
            el ∈ (fold_left (fun d '(sp, a) => dict_add d (symbol sp) a) c d0).*1 <->
            el ∈ d0.*1 \/ exists sp, sp ∈ c.*1 /\ symbol sp = el).
  { induction c as [|[sp a] c IH]; intros d0; simpl.
    - split; [by left|]. intros [?|(sp & Hsp & _)]; [done|by apply elem_of_nil in Hsp].
    - rewrite IH, dict_add_elem. split.
      + intros [[?| ->]|(sp' & Hsp' & Heq)]; [by left| |].
        * right. exists sp. split; [left|done].
        * right. exists sp'. split; [by right|done].
      + intros [?|(sp' & [->|Hsp']%elem_of_cons & Heq)]; [by left; left| |].
        * left. by right.
        * right. by exists sp'. }
  rewrite Hgen. split; [|by right]. intros [Hnil|?]; [|done]. by apply elem_of_nil in Hnil.
Qed.

Lemma get_el_amt_dict_nil (c : Composition) : get_el_amt_dict c = [] -> c = [].
Proof.
  intros Hd. destruct c as [|[sp a] c]; [done|]. exfalso.
  assert (Hin : symbol sp ∈ (get_el_amt_dict ((sp, a) :: c)).*1).
  { apply el_amt_keys. exists sp. split; [left|done]. }
  rewrite Hd in Hin. by apply elem_of_nil in Hin.
Qed.

(** X11: the ionic radii of a [Composition] object. Made of plain elements
    it raises the [ValueError] of the missing oxidation state; made of
    species with oxidation states, of different elements, each with a
    radius for its state, it returns the radius of each species once per
    atom. *)
Theorem ionic_radii_of_object (c : Composition) :
  c <> [] ->
  (forall sp, sp ∈ c.*1 ->
     is_element (symbol sp) = true /\
     exists radii, getattr (symbol sp) "ionic_radii" = Some (PDict radii)) ->
  (Forall (fun sp => oxi_state sp = None) c.*1 ->
   get_property (CompObj c) "ionic_radii"
   = IO [] (Raise (ValueError (missing_oxidation_state_message "ionic_radii")))) /\
  (NoDup (map symbol c.*1) ->
   (forall sp, sp ∈ c.*1 ->
      exists radii o r, getattr (symbol sp) "ionic_radii" = Some (PDict radii) /\
                        oxi_state sp = Some o /\ radii !! o = Some r) ->
   exists d : gmap string Z,
     get_property (CompObj c) "ionic_radii"
     = IO [] (Ok (flat_map (fun el => per_atom (resolved d "ionic_radii" el)
                                        (amount (get_el_amt_dict c) el))
                    (sorted (get_el_amt_dict c).*1))) /\
     forall sp, sp ∈ c.*1 ->
       exists radii o, getattr (symbol sp) "ionic_radii" = Some (PDict radii) /\
                       oxi_state sp = Some o /\
                       resolved d "ionic_radii" (symbol sp) = radii !! o).
Proof.
  intros Hne Hels. split.
  - intros Hplain.
    assert (Hres : resolve (CompObj c) = Ok (c, ∅)).
    { destruct c as [|[sp0 a0] rest]; [done|].
      apply Forall_cons in Hplain as [Hsp0 _]. simpl in Hsp0.
      cbn [resolve]. by rewrite Hsp0. }
    rewrite pymatgen_get_property_unfold, Hres.
    destruct (sorted (get_el_amt_dict c).*1) as [|el rest] eqn:Hs.
    + apply sorted_nil_inv, fmap_nil_inv in Hs. by apply get_el_amt_dict_nil in Hs.
    + assert (Hel : el ∈ (get_el_amt_dict c).*1) by (rewrite <- elem_of_sorted, Hs; left).
      apply el_amt_keys in Hel as (sp & Hsp & <-).
      destruct (Hels sp Hsp) as (Helem & radii & Hattr).
      rewrite loop_cons, Element_ok, Hattr, value_and_unit_ionic by done.
      rewrite bool_decide_eq_false_2; [done|]. intros Hn. by apply Hn.
  - intros Hnd Hradii.
    destruct (resolve_decorated c Hne) as (d & Hres & Hd); [|done|].
    { apply Forall_forall. intros sp Hsp.
      destruct (Hradii sp Hsp) as (_ & o & _ & _ & -> & _). done. }
    assert (Hval : forall sp, sp ∈ c.*1 ->
              exists radii o r,
                getattr (symbol sp) "ionic_radii" = Some (PDict radii) /\
                oxi_state sp = Some o /\ radii !! o = Some r /\
                value_and_unit d (symbol sp) "ionic_radii" (PDict radii)
                = Ok (Some r, Some "ang") /\
                resolved d "ionic_radii" (symbol sp) = Some r).
    { intros sp Hsp. destruct (Hradii sp Hsp) as (radii & o & r & Hattr & Ho & Hr).
      assert (Hlook : d !! symbol sp = Some o) by (rewrite (Hd sp Hsp); done).
      assert (Hv : value_and_unit d (symbol sp) "ionic_radii" (PDict radii)
                   = Ok (Some r, Some "ang")).
      { rewrite value_and_unit_ionic, bool_decide_eq_true_2, Hlook, Hr; [done|].
        intros ->. by rewrite lookup_empty in Hlook. }
      exists radii, o, r. split_and!; try done.
      by apply (resolves_value _ _ _ _ _ _ Hattr Hv). }
    exists d. split.
    + rewrite pymatgen_get_property_unfold, Hres.
      destruct (loop_spec d (get_el_amt_dict c) "ionic_radii" _
                  (sorted_keys_subseteq _) [] []) as [Hgo _].
      rewrite Hgo; [done|]. apply Forall_forall. intros el Hel.
      rewrite elem_of_sorted in Hel. apply el_amt_keys in Hel as (sp & Hsp & <-).
      destruct (Hval sp Hsp) as (radii & o & r & Hattr & _ & _ & Hv & Hr).
      split; [by apply Hels|]. exists (PDict radii), (Some "ang"). by rewrite Hr.
    + intros sp Hsp.
      destruct (Hval sp Hsp) as (radii & o & r & Hattr & Ho & Hr & _ & Hres').
      exists radii, o. by rewrite Hres', Hr.
Qed.


End LiveObjectFacts.

Lemma resolve_composition_object_witness :
  exists d : gmap string Z,
    PymatgenData.resolve (H := Sample.world)
      (CompObj [Sample.ion "Fe" 3 2; Sample.ion "O" (-2) 3])
    = Ok ([Sample.ion "Fe" 3 2; Sample.ion "O" (-2) 3], d) /\
    forall sp, sp ∈ [Sample.ion "Fe" 3 2; Sample.ion "O" (-2) 3].*1 ->
               d !! symbol sp = oxi_state sp.
Proof.
  destruct (resolve_composition_object (H := Sample.world)
              [Sample.ion "Fe" 3 2; Sample.ion "O" (-2) 3]) as (_ & _ & _ & Hdecorated).
  apply Hdecorated.
  - discriminate.
  - repeat constructor; discriminate.
  - apply (bool_decide_unpack _). vm_compute. exact I.
Defined.

Lemma numeric_attribute_values_witness :
  PymatgenData.get_property (H := Sample.world) (CompStr "Fe2O3") "atomic_mass"
  = IO [] (Ok (flat_map (fun el => per_atom (resolved (H := Sample.world) ∅ "atomic_mass" el)
                                     (amount [("Fe", 2%Q); ("O", 3%Q)] el))
                 (sorted (H := Sample.world) ["Fe"; "O"]))).
Proof.
  apply (numeric_attribute_values (H := Sample.world) (CompStr "Fe2O3") "atomic_mass"
           [Sample.plain "Fe" 2; Sample.plain "O" 3] ∅).
  - reflexivity.
  - intros el Hel. sample_keys Hel; (split; [reflexivity|]);
      eexists _, _; (split; [reflexivity|]);
      (split; [discriminate|]); eexists; (split; [reflexivity|]); by right.
Defined.

Lemma unitless_attribute_raises_silently_witness :
  PymatgenData.get_property (H := flagged_world) (CompStr "Fe2O3") "is_metal"
  = IO [] (Raise (AttributeError "unit")).
Proof.
  apply (unitless_attribute_raises_silently (H := flagged_world) (CompStr "Fe2O3") "is_metal"
           [Sample.plain "Fe" 2; Sample.plain "O" 3] ∅).
  - reflexivity.
  - discriminate.
  - apply (bool_decide_unpack _). vm_compute. exact I.
  - intros el Hel. sample_keys Hel; (split; [reflexivity | eexists; reflexivity]).
Defined.

Lemma ionic_radii_of_object_witness :
  exists d : gmap string Z,
    PymatgenData.get_property (H := Sample.world)
      (CompObj [Sample.ion "Fe" 3 2; Sample.ion "O" (-2) 3]) "ionic_radii"
    = IO [] (Ok (flat_map (fun el => per_atom (resolved (H := Sample.world) d "ionic_radii" el)
                                       (amount [("Fe", 2%Q); ("O", 3%Q)] el))
                   (sorted (H := Sample.world) ["Fe"; "O"]))) /\
    forall sp, sp ∈ [Sample.ion "Fe" 3 2; Sample.ion "O" (-2) 3].*1 ->
      exists radii o, Sample.attribute (symbol sp) "ionic_radii" = Some (PDict radii) /\
                      oxi_state sp = Some o /\
                      resolved (H := Sample.world) d "ionic_radii" (symbol sp) = radii !! o.
Proof.
  assert (Hels : forall sp, sp ∈ [Sample.ion "Fe" 3 2; Sample.ion "O" (-2) 3].*1 ->
            is_element (Pymatgen := Sample.world) (symbol sp) = true /\
            exists radii, Sample.attribute (symbol sp) "ionic_radii" = Some (PDict radii)).
  { intros sp Hsp. sample_keys Hsp; (split; [reflexivity | eexists; reflexivity]). }
  destruct (ionic_radii_of_object (H := Sample.world)
              [Sample.ion "Fe" 3 2; Sample.ion "O" (-2) 3]) as [_ Hdecorated];
    [discriminate | exact Hels |].
  apply Hdecorated.
  - apply (bool_decide_unpack _). vm_compute. exact I.
  - intros sp Hsp. sample_keys Hsp.
    + exists (Sample.radii "Fe"), 3%Z, (FNum (785 # 1000)). by split_and!.
    + exists (Sample.radii "O"), (-2)%Z, (FNum (126 # 100)). by split_and!.
Defined.

(** * Further properties: the oxidation-state parser *)

Section ParserInvariants.
Context `{Pymatgen}.
Import OxidationStateParser.

Lemma strip_prefix_sound (pre s rest : string) :
  Py.strip_prefix pre s = Some rest -> s = pre +:+ rest.
Proof.
  revert s. induction pre as [|a pre IH]; intros s; simpl.
  - by intros [= ->].
  - destruct s as [|b s]; [done|].
    destruct (Ascii.eqb_spec a b) as [->|_]; [|done].
    intros Hs. by rewrite str_app_cons, (IH _ Hs).
Qed.

(** What [partition] finds is in the string: the text before it, the
    separator and the text after it make the string. *)
Lemma partition_sound (sep s before after : string) :
  Py.partition sep s = Some (before, after) -> s = before +:+ sep +:+ after.
Proof.
  revert before. induction s as [|c s IH]; intros before; simpl.
  - destruct (Py.strip_prefix sep EmptyString) as [rest|] eqn:Hsp; [|done].
    intros [= <- <-]. by apply strip_prefix_sound in Hsp.
  - destruct (Py.strip_prefix sep (String c s)) as [rest|] eqn:Hsp.
    + intros [= <- <-]. by apply strip_prefix_sound in Hsp.
    + destruct (Py.partition sep s) as [[b a]|]; [|done].
      intros [= <- <-]. by rewrite str_app_cons, <- (IH b).
Qed.

Lemma split1_unpack2 (s sep before after : string) (l : list string) :
  Py.split1 s sep = Ok l -> unpack2 l = Ok (before, after) ->
  s = before +:+ sep +:+ after.
Proof.
  unfold Py.split1. destruct sep as [|c sep]; [done|].
  destruct (Py.partition (String c sep) s) as [[b a]|] eqn:Hp.
  - intros [= <-] [= <- <-]. by apply partition_sound.
  - by intros [= <-].
Qed.

Lemma split_rest_weave (after : string) (oxs parts : list string) :
  split_rest after oxs = Ok parts ->
  length parts = length oxs /\ exists rest : string, after = weave parts oxs rest.
Proof.
  revert after parts. induction oxs as [|t oxs IH]; intros after parts; simpl.
  - intros [= <-]. split; [done|]. by exists after.
  - destruct (Py.split1 after t) as [l|e] eqn:Hl; cbn [mbind res_bind rbind]; [|done].
    destruct (unpack2 l) as [[before after']|e] eqn:Hu;
      cbn [mbind res_bind rbind]; [|done].
    destruct (split_rest after' oxs) as [fp|e] eqn:Hfp;
      cbn [mbind res_bind rbind]; [|done].
    intros [= <-]. destruct (IH _ _ Hfp) as (Hlen & rest & Hrest).
    split; [by simpl; rewrite Hlen|].
    exists rest. simpl. rewrite <- Hrest. by apply (split1_unpack2 _ _ _ _ l).
Qed.

(** X12: what a successful parse returns. Without a token it is the
    composition of the formula as it is and the empty map. With tokens the
    formula is the parts with the tokens after them and a remaining text,
    and the composition is the one of the parts alone: the tokens are
    removed, and so is the text that follows the last token. *)
Theorem parse_keeps_parts_only (formula : string) (c : Composition)
    (d : gmap string Z) :
  get_composition_oxidation_state formula = Ok (c, d) ->
  exists toks : list string,
    tokens_of (Py.re_split_plus Py.is_alpha formula) = Ok toks /\
    ((toks = [] /\ Composition_of_str formula = Ok c /\ d = ∅) \/
     (toks <> [] /\
      exists (parts : list string) (rest : string),
        length parts = length toks /\
        formula = weave parts toks rest /\
        Composition_of_str (Py.join EmptyString parts) = Ok c)).
Proof.
  unfold get_composition_oxidation_state.
  destruct (Py.re_split_plus Py.is_alpha formula) as [|na nas] eqn:Hsplit.
  { by apply split_plus_not_nil in Hsplit. }
  destruct (tokens_of (na :: nas)) as [toks|e]; cbn [mbind res_bind rbind]; [|done].
  intros Hrun. exists toks. split; [done|].
  destruct toks as [|t0 oxs].
  - left. destruct (Composition_of_str formula) as [c'|e]; [|done].
    cbn [rbind] in Hrun. injection Hrun as <- <-. done.
  - right. split; [done|].
    destruct (Py.split1 formula t0) as [l|e] eqn:Hl; cbn [mbind res_bind rbind] in Hrun;
      [|done].
    destruct (unpack2 l) as [[before after]|e] eqn:Hu;
      cbn [mbind res_bind rbind] in Hrun; [|done].
    destruct (split_rest after oxs) as [fp|e] eqn:Hfp;
      cbn [mbind res_bind rbind] in Hrun; [|done].
    destruct (assign_states ∅ (before :: fp) (t0 :: oxs)) as [d'|e];
      cbn [mbind res_bind rbind] in Hrun; [|done].
    destruct (Composition_of_str (Py.join EmptyString (before :: fp))) as [c'|e] eqn:Hc;
      cbn [rbind] in Hrun; [|done].
    injection Hrun as <- <-.
    destruct (split_rest_weave _ _ _ Hfp) as (Hlen & rest & Hrest).
    exists (before :: fp), rest. split_and!; [by simpl; rewrite Hlen| |done].
    simpl. rewrite <- Hrest. by apply (split1_unpack2 _ _ _ _ l).
Qed.

Lemma assign_states_inv (P : string -> Z -> Prop) (parts toks : list string) :
  (forall t v sym, t ∈ toks -> Py.int t = Ok v -> is_element sym = true -> P sym v) ->
  forall d0 d : gmap string Z,
    (forall k v, d0 !! k = Some v -> P k v) ->
    assign_states d0 parts toks = Ok d ->
    forall k v, d !! k = Some v -> P k v.
Proof.
  revert toks. induction parts as [|g parts IH]; intros toks Htoks d0 d Hd0; simpl.
  - by intros [= <-].
  - destruct toks as [|t toks]; [done|].
    destruct (Py.int t) as [v0|e] eqn:Hint; cbn [mbind res_bind rbind]; [|done].
    destruct (Element _) as [sym|e] eqn:Hsym; cbn [rbind]; [|done].
    apply IH.
    + intros t' v' sym' Ht'. apply Htoks. by right.
    + intros k v. destruct (decide (sym = k)) as [->|Hne].
      * rewrite lookup_insert_eq. intros [= <-].
        apply (Htoks t); [left|done|].
        unfold Element in Hsym. destruct (is_element _) eqn:Hel; [|done].
        by injection Hsym as <-.
      * rewrite lookup_insert_ne by done. apply Hd0.
Qed.

(** X13: every key of the oxidation-state map that the parser returns is
    the symbol of an element, and its value is [int] of one of the tokens of
    the formula. *)
Theorem parse_states_are_elements (formula : string) (c : Composition)
    (d : gmap string Z) (k : string) (v : Z) :
  get_composition_oxidation_state formula = Ok (c, d) ->
  d !! k = Some v ->
  is_element k = true /\
  exists toks t,
    tokens_of (Py.re_split_plus Py.is_alpha formula) = Ok toks /\
    t ∈ toks /\ Py.int t = Ok v.
Proof.
  unfold get_composition_oxidation_state.
  destruct (Py.re_split_plus Py.is_alpha formula) as [|na nas] eqn:Hsplit.
  { by apply split_plus_not_nil in Hsplit. }
  destruct (tokens_of (na :: nas)) as [toks|e]; cbn [mbind res_bind rbind]; [|done].
  destruct toks as [|t0 oxs].
  - destruct (Composition_of_str formula) as [c'|e]; [|done].
    cbn [rbind]. intros [= <- <-]. by rewrite lookup_empty.
  - destruct (Py.split1 formula t0) as [l|e]; cbn [mbind res_bind rbind]; [|done].
    destruct (unpack2 l) as [[before after]|e]; cbn [mbind res_bind rbind]; [|done].
    destruct (split_rest after oxs) as [fp|e]; cbn [mbind res_bind rbind]; [|done].
    destruct (assign_states ∅ (before :: fp) (t0 :: oxs)) as [d'|e] eqn:Hd;
      cbn [mbind res_bind rbind]; [|done].
    destruct (Composition_of_str _) as [c'|e]; cbn [rbind]; [|done].
    intros [= <- <-] Hk.
    apply (assign_states_inv
             (fun sym v => is_element sym = true /\
                exists toks t, Ok (t0 :: oxs) = Ok toks /\ t ∈ toks /\ Py.int t = Ok v)
             (before :: fp) (t0 :: oxs)) with (d0 := ∅) (d := d'); try done.
    intros t v' sym Ht Hint Hel. split; [done|]. by exists (t0 :: oxs), t.
Qed.

(** The token of a segment that ends with its sign is the sign alone. *)
Lemma token_of_bare_sign (amount : string) (c : ascii) :
  Py.forallb_str Py.is_digit amount = true ->
  Py.is_sign c = true ->
  token_of (amount +:+ String c EmptyString) = Ok (String c EmptyString).
Proof.
  intros Ham Hc. unfold token_of.
  assert (Hdigits : Py.re_split_plus Py.is_sign (amount +:+ String c EmptyString)
                    = [amount; EmptyString]).
  { unfold Py.re_split_plus.
    rewrite (split_plus_prepend _ _ _ EmptyString [EmptyString]).
    - by rewrite str_app_nil_r.
    - by apply (forallb_existsb_str _ _ _ digit_not_sign).
    - simpl. by rewrite Hc. }
  assert (Hsign : exists init,
             Py.re_split_plus Py.is_digit (amount +:+ String c EmptyString)
             = init ++ [String c EmptyString] /\
             Forall (fun x => x = EmptyString) init).
  { assert (Htail : forall b,
              Py.re_split_plus_from Py.is_digit b (String c EmptyString)
              = [String c EmptyString]).
    { intros b. simpl. by rewrite (sign_not_digit _ Hc). }
    unfold Py.re_split_plus. destruct amount as [|a am] eqn:Heq.
    - exists []. split; [apply Htail | constructor].
    - exists [EmptyString]. rewrite <- Heq in *.
      rewrite split_plus_run by (done || by rewrite Heq).
      split; [by rewrite Htail | by repeat constructor]. }
  destruct Hsign as (init & -> & Hinit). rewrite Hdigits.
  assert (Hs : Py.strip (String c EmptyString) = String c EmptyString).
  { apply strip_id. simpl. by rewrite (sign_not_space _ Hc). }
  assert (Hfilter : map Py.strip
            (filter (fun x => Py.strip x <> EmptyString) (init ++ [String c EmptyString]))
            = [String c EmptyString]).
  { rewrite filter_app.
    assert (Hnil : filter (fun x => Py.strip x <> EmptyString) init = []).
    { clear -Hinit. induction Hinit as [|x init -> _ IH]; [done|].
      rewrite filter_cons. by destruct (decide _). }
    rewrite Hnil. simpl. rewrite filter_cons, filter_nil.
    destruct (decide (Py.strip (String c EmptyString) <> EmptyString)) as [_|Hn];
      [|by rewrite Hs in Hn; destruct Hn].
    simpl. by rewrite Hs. }
  rewrite Hfilter. done.
Qed.

(** X14: an ion written with its sign and no digits, as ["Cl-"] or
    ["Fe2+"], is rejected: the token is the sign alone and [int] of it
    raises [ValueError]. *)
Theorem parse_bare_sign_raises (sym amount : string) (c : ascii) :
  sym <> EmptyString ->
  Py.forallb_str Py.is_alpha sym = true ->
  Py.forallb_str Py.is_digit amount = true ->
  Py.is_sign c = true ->
  get_composition_oxidation_state (sym +:+ amount +:+ String c EmptyString)
  = Raise (ValueError ("invalid literal for int() with base 10: "
                       +:+ Py.repr (String c EmptyString))).
Proof.
  intros Hne Hsym Ham Hc.
  assert (Hseg_alpha : Py.existsb_str Py.is_alpha (amount +:+ String c EmptyString) = false).
  { rewrite existsb_str_app. simpl.
    by rewrite (forallb_existsb_str _ _ _ digit_not_alpha Ham), (sign_not_alpha _ Hc). }
  assert (Hseg_space : Py.existsb_str Py.is_space (amount +:+ String c EmptyString) = false).
  { rewrite existsb_str_app. simpl.
    by rewrite (forallb_existsb_str _ _ _ digit_not_space Ham), (sign_not_space _ Hc). }
  assert (Hseg_sign : Py.has_sign (amount +:+ String c EmptyString) = true).
  { unfold Py.has_sign. rewrite existsb_str_app. simpl. rewrite Hc. by rewrite orb_true_r. }
  assert (Hpre_sign : Py.existsb_str Py.is_sign (sym +:+ amount) = false).
  { rewrite existsb_str_app.
    by rewrite (forallb_existsb_str _ _ _ alpha_not_sign Hsym),
      (forallb_existsb_str _ _ _ digit_not_sign Ham). }
  unfold get_composition_oxidation_state, Py.re_split_plus.
  rewrite split_plus_run, (split_plus_none _ _ _ Hseg_alpha) by done.
  cbn [tokens_of]. change (Py.strip EmptyString) with EmptyString.
  rewrite (bool_decide_eq_false_2 (EmptyString <> EmptyString)) by (intros Hn; by apply Hn).
  cbn [andb]. rewrite (strip_id _ Hseg_space), Hseg_sign, bool_decide_eq_true_2.
  2: { by destruct amount. }
  cbn [andb]. rewrite (token_of_bare_sign _ _ Ham Hc). cbn [mbind res_bind rbind tokens_of].
  assert (Hcut : Py.split1 (sym +:+ amount +:+ String c EmptyString) (String c EmptyString)
                 = Ok [sym +:+ amount; EmptyString]).
  { unfold Py.split1.
    replace (sym +:+ amount +:+ String c EmptyString)
      with ((sym +:+ amount) +:+ String c EmptyString +:+ EmptyString)
      by (by rewrite str_app_assoc).
    by rewrite (partition_first Py.is_sign). }
  rewrite Hcut. cbn [mbind res_bind rbind unpack2 split_rest assign_states].
  assert (Hint : Py.int (String c EmptyString)
                 = Raise (ValueError ("invalid literal for int() with base 10: "
                                      +:+ Py.repr (String c EmptyString)))).
  { unfold Py.int. rewrite skip_id by (simpl; by rewrite (sign_not_space _ Hc)).
    destruct (sign_plus_or_minus _ Hc) as [Hplus|[Hplus Hminus]].
    - by rewrite Hplus.
    - by rewrite Hplus, Hminus. }
  by rewrite Hint.
Qed.

End ParserInvariants.

Lemma parse_keeps_parts_only_witness :
  exists toks : list string,
    OxidationStateParser.tokens_of (Py.re_split_plus Py.is_alpha "Fe2+3O3") = Ok toks /\
    ((toks = [] /\ Sample.formula "Fe2+3O3" = Ok [Sample.plain "Fe" 2] /\
      ({[ "Fe" := 3%Z ]} : gmap string Z) = ∅) \/
     (toks <> [] /\
      exists (parts : list string) (rest : string),
        length parts = length toks /\
        "Fe2+3O3" = weave parts toks rest /\
        Sample.formula (Py.join EmptyString parts) = Ok [Sample.plain "Fe" 2])).
Proof.
  apply (parse_keeps_parts_only (H := Sample.world) "Fe2+3O3"
           [Sample.plain "Fe" 2] {[ "Fe" := 3%Z ]}).
  reflexivity.
Defined.

Lemma parse_states_are_elements_witness :
  is_element (Pymatgen := Sample.world) "O" = true /\
  exists toks t,
    OxidationStateParser.tokens_of (Py.re_split_plus Py.is_alpha "Fe2+3O3-2") = Ok toks /\
    t ∈ toks /\ Py.int t = Ok (-2)%Z.
Proof.
  apply (parse_states_are_elements (H := Sample.world) "Fe2+3O3-2"
           [Sample.plain "Fe" 2; Sample.plain "O" 3] {[ "Fe" := 3%Z; "O" := (-2)%Z ]}).
  - reflexivity.
  - reflexivity.
Defined.

Lemma parse_bare_sign_raises_witness :
  OxidationStateParser.get_composition_oxidation_state (H := Sample.world) "Cl-"
  = Raise (ValueError "invalid literal for int() with base 10: '-'").
Proof.
  apply (parse_bare_sign_raises (H := Sample.world) "Cl" EmptyString "-"); done.
Defined.

(** * Further properties: the discovery of the property files *)

Section DiscoveryFacts.
Context `{Pymatgen}.
Import MagpieData.

Lemma str_length_app (a b : string) :
  String.length (a +:+ b) = (String.length a + String.length b)%nat.
Proof. induction a as [|x a IH]; [done|]. rewrite str_app_cons. simpl. by rewrite IH. Qed.

Lemma is_suffix_app (suf a : string) (fuel : nat) :
  (String.length a <= fuel)%nat -> Py.is_suffix_from fuel suf (a +:+ suf) = true.
Proof.
  revert fuel. induction a as [|x a IH]; intros fuel Hfuel.
  - change (EmptyString +:+ suf) with suf. destruct fuel; simpl; by rewrite String.eqb_refl.
  - destruct fuel as [|fuel]; [simpl in Hfuel; lia|].
    rewrite str_app_cons. simpl.
    destruct (String.eqb suf (String x (a +:+ suf))); [done|].
    apply IH. simpl in Hfuel. lia.
Qed.

(** The extension does not start inside a text that does not start with
    it. *)
Lemma strip_prefix_table_app (s : string) :
  s <> EmptyString ->
  Py.strip_prefix ".table" s = None ->
  Py.strip_prefix ".table" (s +:+ ".table") = None.
Proof.
  intros Hne.
  destruct s as [|c1 [|c2 [|c3 [|c4 [|c5 [|c6 s]]]]]]; [done|..];
    rewrite ?str_app_cons; change (EmptyString +:+ ".table") with ".table";
    cbn -[Ascii.eqb];
    repeat (match goal with
            | |- context [Ascii.eqb ?a ?b] =>
                first
                  [ is_var b; destruct (Ascii.eqb_spec a b); [subst|]
                  | let r := eval vm_compute in (Ascii.eqb a b) in
                    change (Ascii.eqb a b) with r ];
                cbn -[Ascii.eqb]
            end); done.
Qed.

Lemma partition_cons (sep : string) (x : ascii) (s : string) :
  Py.partition sep (String x s)
  = match Py.strip_prefix sep (String x s) with
    | Some rest => Some (EmptyString, rest)
    | None =>
        match Py.partition sep s with
        | Some (b, a) => Some (String x b, a)
        | None => None
        end
    end.
Proof. reflexivity. Qed.

(** In a name without the extension inside it, the extension is first
    found at the end. *)
Lemma partition_table_app (stem : string) :
  Py.partition ".table" stem = None ->
  Py.partition ".table" (stem +:+ ".table") = Some (stem, EmptyString).
Proof.
  induction stem as [|x stem IH]; [done|].
  rewrite partition_cons. intros Hp.
  destruct (Py.strip_prefix ".table" (String x stem)) as [rest|] eqn:Hsp; [done|].
  destruct (Py.partition ".table" stem) as [[b a]|] eqn:Hrest; [done|].
  pose proof (strip_prefix_table_app (String x stem) ltac:(done) Hsp) as Happ.
  rewrite str_app_cons in *. by rewrite partition_cons, Happ, IH.
Qed.

Lemma replace_table (stem : string) :
  Py.partition ".table" stem = None ->
  Py.replace (stem +:+ ".table") ".table" EmptyString = stem.
Proof.
  intros Hp. unfold Py.replace. rewrite str_length_app.
  replace (String.length stem + String.length ".table")%nat
    with (S (String.length stem + 5)) by (simpl; lia).
  cbn [Py.replace_from]. rewrite (partition_table_app _ Hp).
  change (EmptyString +:+ ?x) with x.
  assert (Hnil : Py.replace_from (String.length stem + 5) ".table" EmptyString EmptyString
                 = EmptyString) by (by destruct (String.length stem + 5)%nat).
  by rewrite Hnil, str_app_nil_r.
Qed.

(** X15: a file [P.table] of the directory, whose name [P] is not empty,
    does not start with a dot and does not contain [.table], is discovered
    as the property [P]: when [__init__] returns a table, [P] is among its
    available properties. *)
Theorem init_discovers (dir : directory) (self : MagpieData.t) (stem : string) :
  init dir = Ok self ->
  (stem +:+ ".table") ∈ dir.*1 ->
  stem <> EmptyString ->
  Py.strip_prefix "." stem = None ->
  Py.partition ".table" stem = None ->
  stem ∈ available_props self.
Proof.
  intros Hinit Hfile Hne Hdot Hp. unfold init in Hinit.
  destruct (_parse dir _) as [tbl|e]; cbn [mbind res_bind rbind] in Hinit; [|done].
  injection Hinit as <-. cbn [available_props].
  apply list_elem_of_fmap. exists (stem +:+ ".table").
  split; [by rewrite (replace_table stem Hp)|].
  unfold glob_table. apply list_elem_of_filter. split; [|done].
  rewrite is_suffix_app by (rewrite str_length_app; lia). cbn [andb].
  destruct stem as [|x stem]; [done|]. rewrite str_app_cons.
  cbn -[Ascii.eqb] in *.
  destruct (Ascii.eqb "." x); [done|].
  rewrite bool_decide_eq_false_2; [done|]. intros Hn. by apply Hn.
Qed.

End DiscoveryFacts.

Lemma init_discovers_witness :
  "Electronegativity" ∈ MagpieData.available_props Sample.magpie.
Proof.
  apply (init_discovers (H := Sample.world) Sample.data_dir Sample.magpie).
  - vm_compute. reflexivity.
  - apply (bool_decide_unpack _). vm_compute. exact I.
  - discriminate.
  - reflexivity.
  - reflexivity.
Defined.
